(** * redisweb: a shallow embedding of [app.py]

    The inspection engine of the dashboard is embedded function by
    function: the type dispatch tables ([VALUE_GETTERS], [LENGTH_GETTERS]),
    the key inspector ([_get_key_info], [_get_key_details]), the database
    sampler ([_get_db_summary]) and enumerator ([_get_db_details]), the
    statistics of the server ([RedisServer.stats], [RedisServer.slowlog_get],
    [RedisServer.slowlog_len]) and the small helpers they call ([safeint],
    [_fixup_pair], [_decode_bytes], [prettify]).

    Conventions of the embedding.
    - Python values exchanged with the store are terms of [pyval]; byte
      strings and text are both carried by [string] (a sequence of bytes,
      text in its UTF-8 encoding) under different constructors.
    - A Python exception is a term of [exn]; code that can raise returns a
      [result].  Code that talks to the store runs in the monad [M], which
      threads the state of the outside world (the store and whatever else
      changes it between two commands) next to the result.
    - Python's true division produces a float.  Floats are idealised as
      exact rationals ([Q]); rounding and overflow of floats are not
      modelled.
    - Replies of the store carry no floating-point numbers. *)

From Stdlib Require Import ZArith QArith List String Ascii Bool Lia Permutation Sorted.
Import ListNotations.
Local Open Scope string_scope.
Local Open Scope Z_scope.
Set Warnings "-register-all".

(** ** Values and exceptions *)

(** Hashable keys of a Python dict: byte strings and text are different
    keys even when they hold the same bytes. *)
Inductive pykey : Type :=
| KBytes (b : string)
| KStr (s : string).

Inductive pyval : Type :=
| VNone
| VInt (z : Z)
| VBytes (b : string)
| VStr (s : string)
| VList (l : list pyval)
| VDict (d : list (pykey * pyval)).

(** Values as the presentation layer receives them: a value of the store,
    a [datetime.timedelta] or a [datetime.datetime]. *)
Inductive rendered : Type :=
| Raw (v : pyval)
| Timedelta (seconds : Z)
| Datetime (epoch : Z)
| Mapping (d : list (pykey * rendered)).

Inductive exn : Type :=
| KeyError (k : pykey)
| IndexError
| ValueError
| TypeError
| AttributeError (attr : string)
| OverflowError
| ZeroDivisionError
| ResponseError (msg : string)
| ConnectionError (msg : string).

Inductive result (A : Type) : Type :=
| Ok (a : A)
| Raise (e : exn).
Arguments Ok {A} a.
Arguments Raise {A} e.

Definition rbind {A B} (r : result A) (k : A -> result B) : result B :=
  match r with
  | Ok a => k a
  | Raise e => Raise e
  end.

Declare Scope res_scope.
Delimit Scope res_scope with res.
Notation "'let?' x ':=' r 'in' k" := (rbind r (fun x => k))
  (at level 10, x pattern, r at level 100, k at level 200) : res_scope.
Local Open Scope res_scope.

Definition pykey_eqb (a b : pykey) : bool :=
  match a, b with
  | KBytes x, KBytes y => String.eqb x y
  | KStr x, KStr y => String.eqb x y
  | _, _ => false
  end.

Definition val_of_key (k : pykey) : pyval :=
  match k with
  | KBytes b => VBytes b
  | KStr s => VStr s
  end.

(** ** Python dicts as insertion-ordered association lists *)

Definition dict (V : Type) : Type := list (pykey * V).

Fixpoint dict_get {V} (d : dict V) (k : pykey) : option V :=
  match d with
  | [] => None
  | (k', v) :: d' => if pykey_eqb k' k then Some v else dict_get d' k
  end.

(** [d[k] = v]: an existing key keeps its position, a new key goes last. *)
Fixpoint dict_set {V} (d : dict V) (k : pykey) (v : V) : dict V :=
  match d with
  | [] => [(k, v)]
  | (k', v') :: d' =>
      if pykey_eqb k' k then (k', v) :: d' else (k', v') :: dict_set d' k v
  end.

(** [dict(pairs)] and [OrderedDict(pairs)]. *)
Definition dict_of_pairs {V} (l : list (pykey * V)) : dict V :=
  fold_left (fun d kv => dict_set d (fst kv) (snd kv)) l [].

(** [d[k]], raising [KeyError] on a missing key. *)
Definition dict_item {V} (d : dict V) (k : pykey) : result V :=
  match dict_get d k with
  | Some v => Ok v
  | None => Raise (KeyError k)
  end.

(** ** Bytes *)

Definition byte_code (c : ascii) : Z := Z.of_N (N_of_ascii c).

Fixpoint codes (s : string) : list Z :=
  match s with
  | EmptyString => []
  | String c s' => byte_code c :: codes s'
  end.

Definition is_cont (b : Z) : bool := (128 <=? b) && (b <=? 191).
Definition between (lo hi b : Z) : bool := (lo <=? b) && (b <=? hi).

(** Strict UTF-8, as [bytes.decode()] checks it: no overlong form, no
    surrogate, nothing above U+10FFFF. *)
Fixpoint utf8_valid (l : list Z) : bool :=
  match l with
  | [] => true
  | b0 :: r0 =>
      if b0 <? 128 then utf8_valid r0
      else match r0 with
      | [] => false
      | b1 :: r1 =>
          if between 194 223 b0 then is_cont b1 && utf8_valid r1
          else match r1 with
          | [] => false
          | b2 :: r2 =>
              if between 224 239 b0 then
                (if b0 =? 224 then between 160 191 b1
                 else if b0 =? 237 then between 128 159 b1
                 else is_cont b1)
                && is_cont b2 && utf8_valid r2
              else match r2 with
              | [] => false
              | b3 :: r3 =>
                  if between 240 244 b0 then
                    (if b0 =? 240 then between 144 191 b1
                     else if b0 =? 244 then between 128 143 b1
                     else is_cont b1)
                    && is_cont b2 && is_cont b3 && utf8_valid r3
                  else false
              end
          end
      end
  end.

(** [_decode_bytes]: a byte string that decodes becomes text, one that does
    not stays as it is, and so does anything that is not a byte string. *)
Definition _decode_bytes (value : pyval) : pyval :=
  match value with
  | VBytes b => if utf8_valid (codes b) then VStr b else VBytes b
  | _ => value
  end.

(** ASCII white space, as [bytes.split()] and [int()] know it. *)
Definition is_space (c : ascii) : bool :=
  let n := byte_code c in
  (n =? 32) || between 9 13 n.

(** [bytes.split()]: the maximal runs of bytes that are not white space. *)
Fixpoint split_ws_aux (s : string) (cur : string) : list string :=
  match s with
  | EmptyString => if String.eqb cur "" then [] else [cur]
  | String c s' =>
      if is_space c
      then (if String.eqb cur "" then split_ws_aux s' ""
            else cur :: split_ws_aux s' "")
      else split_ws_aux s' (cur ++ String c "")
  end.
Definition split_ws (s : string) : list string := split_ws_aux s "".

(** [bytes.split(sep)] for a separator of one byte: empty pieces are kept. *)
Fixpoint split_on_aux (sep : ascii) (s : string) (cur : string) : list string :=
  match s with
  | EmptyString => [cur]
  | String c s' =>
      if Ascii.eqb c sep then cur :: split_on_aux sep s' ""
      else split_on_aux sep s' (cur ++ String c "")
  end.
Definition split_on (sep : ascii) (s : string) : list string :=
  split_on_aux sep s "".

Fixpoint contains_byte (c : ascii) (s : string) : bool :=
  match s with
  | EmptyString => false
  | String c' s' => Ascii.eqb c' c || contains_byte c s'
  end.

Definition colon : ascii := ":"%char.

(** ** [int(b)] on a byte string

    Optional white space around, an optional sign, then decimal digits
    where single underscores may separate two digits. *)

Definition digit_of (c : ascii) : option Z :=
  let n := byte_code c in
  if between 48 57 n then Some (n - 48) else None.

Definition is_underscore (c : ascii) : bool := byte_code c =? 95.

(** [digits_from acc prev_digit s]: [prev_digit] tells whether the byte
    just read was a digit (an underscore must stand between two digits). *)
Fixpoint digits_from (acc : Z) (prev_digit : bool) (s : string) : option Z :=
  match s with
  | EmptyString => if prev_digit then Some acc else None
  | String c s' =>
      match digit_of c with
      | Some d => digits_from (10 * acc + d) true s'
      | None =>
          if is_underscore c && prev_digit
          then match s' with
               | EmptyString => None
               | String c' _ =>
                   match digit_of c' with
                   | Some _ => digits_from acc false s'
                   | None => None
                   end
               end
          else None
      end
  end.

Fixpoint lstrip (s : string) : string :=
  match s with
  | EmptyString => EmptyString
  | String c s' => if is_space c then lstrip s' else s
  end.

Fixpoint rstrip (s : string) : string :=
  match s with
  | EmptyString => EmptyString
  | String c s' =>
      match rstrip s' with
      | EmptyString => if is_space c then EmptyString else String c EmptyString
      | t => String c t
      end
  end.

Definition int_of_bytes (s : string) : option Z :=
  match rstrip (lstrip s) with
  | EmptyString => None
  | String c s' =>
      if Ascii.eqb c "-"%char then option_map Z.opp (digits_from 0 false s')
      else if Ascii.eqb c "+"%char then digits_from 0 false s'
      else digits_from 0 false (String c s')
  end.

(** [safeint]: the integer a byte string spells, or the byte string itself
    when [int] raises [ValueError]. *)
Definition safeint (value : string) : pyval :=
  match int_of_bytes value with
  | Some z => VInt z
  | None => VBytes value
  end.

(** [_fixup_pair]: unpacking wants exactly two pieces. *)
Definition _fixup_pair (pair : list string) : result (pykey * pyval) :=
  match pair with
  | [a; b] => Ok (KBytes a, safeint b)
  | _ => Raise ValueError
  end.

(** ** The connection to the store

    Commands that are queued on a pipeline. *)
Inductive command : Type :=
| DBSIZE
| RANDOMKEY
| DEBUG_OBJECT (key : pyval)
| TTL (key : pyval)
| OBJECT (sub : string) (key : pyval)
| LLEN (key : pyval)
| STRLEN (key : pyval)
| SCARD (key : pyval)
| ZCOUNT (key : pyval) (lo hi : string)
| HLEN (key : pyval).

(** What the client library gives back, for a world of type [W]: every
    call may raise, and every call may leave the world changed (other
    clients write to the store between two commands of this one).  The
    direct calls have the reply types of the client library; a pipeline
    returns the replies of its commands as one list. *)
Record Conn (W : Type) : Type := {
  select : pyval -> W -> result pyval * W;
  type_of : pyval -> W -> result string * W;
  info_cmd : W -> result (dict pyval) * W;
  slowlog_get_cmd : option Z -> W -> result (list (dict pyval)) * W;
  slowlog_len_cmd : W -> result pyval * W;
  lrange : pyval -> Z -> Z -> W -> result (list pyval) * W;
  zrange : pyval -> Z -> Z -> W -> result (list pyval) * W;
  get : pyval -> W -> result pyval * W;
  smembers : pyval -> W -> result (list pyval) * W;
  hgetall : pyval -> W -> result (dict pyval) * W;
  execute : list command -> W -> result (list pyval) * W
}.
Arguments select {W} _ _ _.
Arguments type_of {W} _ _ _.
Arguments info_cmd {W} _ _.
Arguments slowlog_get_cmd {W} _ _ _.
Arguments slowlog_len_cmd {W} _ _.
Arguments lrange {W} _ _ _ _ _.
Arguments zrange {W} _ _ _ _ _.
Arguments get {W} _ _ _.
Arguments smembers {W} _ _ _.
Arguments hgetall {W} _ _ _.
Arguments execute {W} _ _ _.

(** The monad of code that talks to the store. *)
Definition M (W A : Type) : Type := W -> result A * W.

Definition ret {W A} (a : A) : M W A := fun w => (Ok a, w).
Definition throw {W A} (e : exn) : M W A := fun w => (Raise e, w).
Definition lift {W A} (r : result A) : M W A := fun w => (r, w).
Definition bind {W A B} (m : M W A) (k : A -> M W B) : M W B :=
  fun w =>
    match m w with
    | (Ok a, w') => k a w'
    | (Raise e, w') => (Raise e, w')
    end.

Declare Scope io_scope.
Delimit Scope io_scope with io.
Notation "x <- m ;; k" := (bind m (fun x => k))
  (at level 61, m at next level, right associativity) : io_scope.

(** ** Configuration *)

Definition REDISBOARD_DETAIL_FILTERS : list string :=
  [ "aof_enabled"; "bgrewriteaof_in_progress"; "bgsave_in_progress";
    "changes_since_last_save"; "last_save_time"; "multiplexing_api";
    "total_commands_processed"; "total_connections_received";
    "uptime_in_days"; "uptime_in_seconds"; "vm_enabled"; "redis_version" ].
Definition REDISBOARD_DETAIL_TIMESTAMP_KEYS : list pykey := [KStr "last_save_time"].
Definition REDISBOARD_DETAIL_SECONDS_KEYS : list pykey := [KStr "uptime_in_seconds"].
Definition REDISBOARD_SLOWLOG_LEN : Z := 10.

Definition key_in (k : pykey) (l : list pykey) : bool :=
  existsb (pykey_eqb k) l.

(** ** Type dispatch tables *)

(** [enumerate(l)]. *)
Fixpoint enumerate_from {A} (pos : Z) (l : list A) : list (Z * A) :=
  match l with
  | [] => []
  | v :: l' => (pos, v) :: enumerate_from (pos + 1) l'
  end.
Definition enumerate {A} (l : list A) : list (Z * A) := enumerate_from 0 l.

Section Dispatch.
Context {W : Type}.
Local Open Scope io_scope.

Definition value_getter : Type :=
  Conn W -> pyval -> Z -> Z -> M W (list (pyval * pyval)).

(** The defaults of the two range bounds. *)
Definition start_default : Z := 0.
Definition end_default : Z := -1.

Definition get_list : value_getter := fun conn key start end_ =>
  l <- lrange conn key start end_ ;;
  ret (map (fun pv => (VInt (fst pv + start), snd pv)) (enumerate l)).

Definition get_string : value_getter := fun conn key _ _ =>
  v <- get conn key ;;
  ret [(VStr "string", _decode_bytes v)].

Definition get_set : value_getter := fun conn key _ _ =>
  l <- smembers conn key ;;
  ret (map (fun pv => (VInt (fst pv), snd pv)) (enumerate l)).

Definition get_zset : value_getter := fun conn key start end_ =>
  l <- zrange conn key start end_ ;;
  ret (map (fun pv => (VInt (fst pv + start), snd pv)) (enumerate l)).

Definition get_hash : value_getter := fun conn key _ _ =>
  d <- hgetall conn key ;;
  ret (map (fun kv => (val_of_key (fst kv), snd kv)) d).

Definition get_na : value_getter := fun _ _ _ _ => ret [].

(** [VALUE_GETTERS], keyed by text. *)
Definition VALUE_GETTERS : dict value_getter :=
  [ (KStr "list", get_list); (KStr "string", get_string);
    (KStr "set", get_set); (KStr "zset", get_zset);
    (KStr "hash", get_hash); (KStr "n/a", get_na) ].
End Dispatch.

(** [LENGTH_GETTERS], keyed by byte strings: each entry queues one length
    query on the pipeline it is given. *)
Definition LENGTH_GETTERS : dict (pyval -> command) :=
  [ (KBytes "list", LLEN); (KBytes "string", STRLEN);
    (KBytes "set", SCARD);
    (KBytes "zset", fun key => ZCOUNT key "-inf" "+inf");
    (KBytes "hash", HLEN) ].

(** ** Key inspector *)

Section KeyInspector.
Context {W : Type}.
Local Open Scope io_scope.

(** [try: body except redis.exceptions.ResponseError as exc: handler]:
    the handler receives [str(exc)]; every other exception passes. *)
Definition try_except_ResponseError {A}
    (body : M W A) (handler : string -> M W A) : M W A :=
  fun w =>
    match body w with
    | (Raise (ResponseError msg), w') => handler msg w'
    | other => other
    end.

(** The five commands of the batch, in the order they are queued; the
    lookup of the length query raises [KeyError] on a type that
    [LENGTH_GETTERS] does not have. *)
Definition key_info_batch (obj_type : string) (key : pyval)
  : result (list command) :=
  let? length_query := dict_item LENGTH_GETTERS (KBytes obj_type) in
  Ok [ OBJECT "REFCOUNT" key; OBJECT "ENCODING" key; OBJECT "IDLETIME" key;
       length_query key; TTL key ].

Definition _get_key_info (conn : Conn W) (key : pyval) : M W (dict pyval) :=
  obj_type <- type_of conn key ;;
  try_except_ResponseError
    (batch <- lift (key_info_batch obj_type key) ;;
     replies <- execute conn batch ;;
     match replies with
     | [refcount; encoding; idletime; obj_length; obj_ttl] =>
         ret [ (KStr "type", _decode_bytes (VBytes obj_type));
               (KStr "name", key);
               (KStr "length", obj_length);
               (KStr "ttl", obj_ttl);
               (KStr "refcount", refcount);
               (KStr "encoding", _decode_bytes encoding);
               (KStr "idletime", idletime) ]
     | _ => throw ValueError
     end)
    (fun exc =>
       ret [ (KStr "type", VBytes obj_type);
             (KStr "name", key);
             (KStr "length", VStr "n/a");
             (KStr "error", VStr exc);
             (KStr "ttl", VStr "n/a");
             (KStr "refcount", VStr "n/a");
             (KStr "encoding", VStr "n/a");
             (KStr "idletime", VStr "n/a") ]).
End KeyInspector.

(** ** Dates and durations

    [import datetime] binds the module.  These are the public names of the
    module and, of the class [datetime.datetime], the ones that matter
    here; looking up any other name raises [AttributeError]. *)
Definition datetime_module : list string :=
  [ "MAXYEAR"; "MINYEAR"; "UTC"; "date"; "datetime"; "datetime_CAPI";
    "time"; "timedelta"; "timezone"; "tzinfo" ].
Definition datetime_class : list string :=
  [ "combine"; "fromisoformat"; "fromordinal"; "fromtimestamp"; "now";
    "strptime"; "today"; "utcfromtimestamp"; "utcnow" ].

Definition getattr (namespace : list string) (name : string) : result unit :=
  if existsb (String.eqb name) namespace then Ok tt
  else Raise (AttributeError name).

(** [timedelta(seconds=value)]: the number of days must fit nine digits. *)
Definition timedelta_seconds (value : pyval) : result rendered :=
  match value with
  | VInt z =>
      if between (-999999999) 999999999 (z / 86400) then Ok (Timedelta z)
      else Raise OverflowError
  | _ => Raise TypeError
  end.

(** [fromtimestamp(value)] of the class [datetime.datetime]; the range of
    years the platform accepts is not modelled. *)
Definition fromtimestamp (value : pyval) : result rendered :=
  match value with
  | VInt z => Ok (Datetime z)
  | _ => Raise TypeError
  end.

(** [prettify]: the second branch looks [fromtimestamp] up in the module,
    as the source writes it. *)
Definition prettify (key : pykey) (value : pyval) : result (pykey * rendered) :=
  if key_in key REDISBOARD_DETAIL_SECONDS_KEYS then
    let? _ := getattr datetime_module "timedelta" in
    let? d := timedelta_seconds value in
    Ok (key, d)
  else if key_in key REDISBOARD_DETAIL_TIMESTAMP_KEYS then
    let? _ := getattr datetime_module "fromtimestamp" in
    let? t := fromtimestamp value in
    Ok (key, t)
  else Ok (key, Raw value).

(** ** Server statistics *)

(** [mapM] of the result monad: the first exception stops the traversal. *)
Fixpoint traverse {A B} (f : A -> result B) (l : list A) : result (list B) :=
  match l with
  | [] => Ok []
  | a :: l' =>
      let? b := f a in
      let? bs := traverse f l' in
      Ok (b :: bs)
  end.

(** [name.match(k)] for a compiled pattern made of letters and underscores
    only: [k] starts with [name].  A pattern over text refuses bytes. *)
Definition re_match (name : string) (k : pykey) : result bool :=
  match k with
  | KStr s => Ok (String.prefix name s)
  | KBytes _ => Raise TypeError
  end.

(** [k.startswith("db")] and [k[2:]]. *)
Definition startswith_db (k : pykey) : result bool :=
  match k with
  | KStr s => Ok (String.prefix "db" s)
  | KBytes _ => Raise TypeError
  end.
Definition drop2 (k : pykey) : pykey :=
  match k with
  | KStr s => KStr (String.substring 2 (String.length s - 2) s)
  | KBytes b => KBytes (String.substring 2 (String.length b - 2) b)
  end.

(** The generator behind [brief_details]: filters outside, items inside. *)
Definition brief_pairs (info : dict pyval) : result (list (pykey * rendered)) :=
  let? per_filter :=
    traverse (fun name =>
      let? hits :=
        traverse (fun kv =>
          let? m := re_match name (fst kv) in
          if m then let? p := prettify (fst kv) (snd kv) in Ok [p]
          else Ok []) info in
      Ok (List.concat hits)) REDISBOARD_DETAIL_FILTERS in
  Ok (List.concat per_filter).

Definition db_pairs (info : dict pyval) : result (list (pykey * rendered)) :=
  let? hits :=
    traverse (fun kv =>
      let? m := startswith_db (fst kv) in
      Ok (if m then [(drop2 (fst kv), Raw (snd kv))] else [])) info in
  Ok (List.concat hits).

Record RedisServer : Type := {
  sampling_threshold : nat;
  sampling_size : nat;
  (** the [stats] entry of the instance's [__dict__], once computed *)
  cached_stats : option (dict rendered)
}.

(** [server = RedisServer()]: one instance for the life of the module. *)
Definition server : RedisServer :=
  {| sampling_threshold := 1000; sampling_size := 200; cached_stats := None |}.

Section Stats.
Context {W : Type}.
(** How Python formats a value inside an f-string, and how it formats
    the tuple [exc.args]. *)
Variable py_format : pyval -> string.
Variable args_repr : exn -> string.
Local Open Scope io_scope.

(** The [try] block of [stats]. *)
Definition stats_body (conn : Conn W) : M W (dict rendered) :=
  info <- info_cmd conn ;;
  slowlog <- slowlog_get_cmd conn None ;;
  slowlog_len <- slowlog_len_cmd conn ;;
  lift (
    let? used := dict_item info (KStr "used_memory_human") in
    let peak := match dict_get info (KStr "used_memory_peak_human") with
                | Some v => v
                | None => VStr "n/a"
                end in
    let? clients := dict_item info (KStr "connected_clients") in
    let? brief := brief_pairs info in
    let? db := db_pairs info in
    Ok [ (KStr "status", Raw (VStr "UP"));
         (KStr "details", Raw (VDict info));
         (KStr "memory",
           Raw (VStr (py_format used ++ " (peak: " ++ py_format peak ++ ")")));
         (KStr "clients", Raw clients);
         (KStr "brief_details", Mapping (dict_of_pairs brief));
         (KStr "db", Mapping (dict_of_pairs db));
         (KStr "slowlog", Raw (VList (map VDict slowlog)));
         (KStr "slowlog_len", Raw slowlog_len) ]).

(** The [except Exception] block. *)
Definition stats_degraded (exc : exn) : dict rendered :=
  [ (KStr "status", Raw (VStr ("ERROR: " ++ args_repr exc)));
    (KStr "clients", Raw (VStr "n/a"));
    (KStr "memory", Raw (VStr "n/a"));
    (KStr "details", Raw (VDict []));
    (KStr "brief_details", Raw (VDict []));
    (KStr "slowlog", Raw (VList []));
    (KStr "slowlog_len", Raw (VInt 0)) ].

(** The function that [@cached_property] wraps: it never raises. *)
Definition stats_compute (conn : Conn W) (w : W) : dict rendered * W :=
  match stats_body conn w with
  | (Ok d, w') => (d, w')
  | (Raise exc, w') => (stats_degraded exc, w')
  end.

(** [self.stats]: the cached property computes on the first access,
    stores the value in the instance and returns the stored value on
    every later access. *)
Definition stats (conn : Conn W) (self : RedisServer) (w : W)
  : (dict rendered * RedisServer) * W :=
  match cached_stats self with
  | Some value => ((value, self), w)
  | None =>
      let (value, w') := stats_compute conn w in
      ((value,
        {| sampling_threshold := sampling_threshold self;
           sampling_size := sampling_size self;
           cached_stats := Some value |}), w')
  end.

(** The route [/]: every request renders the page from [server.stats];
    the instance lives on from one request to the next. *)
Definition info (conn : Conn W) (srv : RedisServer) (w : W)
  : (dict rendered * RedisServer) * W :=
  stats conn srv w.

(** [RedisServer.slowlog_len]. *)
Definition slowlog_len (conn : Conn W) (w : W) : result pyval * W :=
  match slowlog_len_cmd conn w with
  | (Raise (ConnectionError _), w') => (Ok (VInt 0), w')
  | other => other
  end.
End Stats.

(** One entry that [slowlog_get] yields. *)
Definition slowlog_entry (slowlog : dict pyval) : result (dict rendered) :=
  let? id := dict_item slowlog (KStr "id") in
  let? _ := getattr datetime_module "datetime" in
  let? _ := getattr datetime_class "fromtimestamp" in
  let? start_time := dict_item slowlog (KStr "start_time") in
  let? ts := fromtimestamp start_time in
  let? duration := dict_item slowlog (KStr "duration") in
  let? command := dict_item slowlog (KStr "command") in
  Ok [ (KStr "id", Raw id); (KStr "ts", ts);
       (KStr "duration", Raw duration); (KStr "command", Raw command) ].

(** What a generator produces when it is run to its end: the values it
    yielded and, if it stopped on one, the exception. *)
Fixpoint yield_each {A B} (f : A -> result B) (l : list A)
  : list B * option exn :=
  match l with
  | [] => ([], None)
  | a :: l' =>
      match f a with
      | Ok b => let (bs, e) := yield_each f l' in (b :: bs, e)
      | Raise e => ([], Some e)
      end
  end.

(** [RedisServer.slowlog_get]. *)
Definition slowlog_get {W} (conn : Conn W) (limit : Z) (w : W)
  : (list (dict rendered) * option exn) * W :=
  match slowlog_get_cmd conn (Some REDISBOARD_SLOWLOG_LEN) w with
  | (Ok entries, w') => (yield_each slowlog_entry entries, w')
  | (Raise (ConnectionError _), w') => (([], None), w')
  | (Raise e, w') => (([], Some e), w')
  end.

(** ** Database sampler *)

(** Truth value of a reply, as [if ttl:] tests it. *)
Definition truthy (v : pyval) : bool :=
  match v with
  | VNone => false
  | VInt z => negb (z =? 0)
  | VBytes b => negb (String.eqb b "")
  | VStr s => negb (String.eqb s "")
  | VList l => match l with [] => false | _ => true end
  | VDict d => match d with [] => false | _ => true end
  end.

(** Number of code points of a text: the bytes that do not continue a
    UTF-8 sequence. *)
Definition text_length (s : string) : Z :=
  Z.of_nat (List.length (filter (fun b => negb (is_cont b)) (codes s))).

(** [len(v)]. *)
Definition py_len (v : pyval) : result Z :=
  match v with
  | VBytes b => Ok (Z.of_nat (String.length b))
  | VStr s => Ok (text_length s)
  | VList l => Ok (Z.of_nat (List.length l))
  | VDict d => Ok (Z.of_nat (List.length d))
  | VNone | VInt _ => Raise TypeError
  end.

(** [v + n] for an integer [n]. *)
Definition py_add_int (v : pyval) (n : Z) : result Z :=
  match v with
  | VInt a => Ok (a + n)
  | _ => Raise TypeError
  end.

(** Lists and dicts cannot go into a set. *)
Definition hashable (v : pyval) : bool :=
  match v with
  | VList _ | VDict _ => false
  | _ => true
  end.

(** [==] on hashable values. *)
Definition py_eqb (a b : pyval) : bool :=
  match a, b with
  | VNone, VNone => true
  | VInt x, VInt y => x =? y
  | VBytes x, VBytes y => String.eqb x y
  | VStr x, VStr y => String.eqb x y
  | _, _ => false
  end.

(** [set(l)]: the distinct elements, in some order. *)
Fixpoint py_set (l : list pyval) : result (list pyval) :=
  match l with
  | [] => Ok []
  | v :: l' =>
      if hashable v then
        let? s := py_set l' in
        Ok (if existsb (py_eqb v) s then s else v :: s)
      else Raise TypeError
  end.

(** [a < b]: defined between two integers, two byte strings or two texts
    (text in UTF-8 compares as its bytes do). *)
Definition py_lt (a b : pyval) : result bool :=
  match a, b with
  | VInt x, VInt y => Ok (x <? y)
  | VBytes x, VBytes y => Ok (String.ltb x y)
  | VStr x, VStr y => Ok (String.ltb x y)
  | _, _ => Raise TypeError
  end.

(** [sorted(s)] on distinct elements, by insertion: the outcome, the one
    sorted list or [TypeError] when two elements do not compare, does not
    depend on the sorting algorithm. *)
Fixpoint insert_sorted (x : pyval) (l : list pyval) : result (list pyval) :=
  match l with
  | [] => Ok [x]
  | y :: l' =>
      let? lt := py_lt x y in
      if lt then Ok (x :: y :: l')
      else let? r := insert_sorted x l' in Ok (y :: r)
  end.

Fixpoint py_sorted (l : list pyval) : result (list pyval) :=
  match l with
  | [] => Ok []
  | x :: l' => let? s := py_sorted l' in insert_sorted x s
  end.

(** [l[::2]] and [l[1::2]]. *)
Fixpoint evens {A} (l : list A) : list A :=
  match l with
  | x :: _ :: l' => x :: evens l'
  | [x] => [x]
  | [] => []
  end.
Definition odds {A} (l : list A) : list A := evens (tl l).

(** [zip(a, b, c)] stops with the shortest. *)
Fixpoint zip3 {A B C} (a : list A) (b : list B) (c : list C)
  : list (A * B * C) :=
  match a, b, c with
  | x :: a', y :: b', z :: c' => (x, y, z) :: zip3 a' b' c'
  | _, _, _ => []
  end.

(** The reply to [DEBUG OBJECT] as a dict: taken as it is when it is one,
    otherwise read from the [field:value] tokens of the text.  A text
    reply splits into text tokens, on which [b":" in i] raises (its tokens
    are taken to be those of its bytes). *)
Definition parse_details (details : pyval) : result (dict pyval) :=
  match details with
  | VDict d => Ok d
  | VBytes b =>
      let? pairs :=
        traverse (fun i => _fixup_pair (split_on colon i))
                 (filter (contains_byte colon) (split_ws b)) in
      Ok (dict_of_pairs pairs)
  | VStr s =>
      match split_ws s with
      | [] => Ok []
      | _ => Raise TypeError
      end
  | _ => Raise (AttributeError "split")
  end.

(** [length = details[b"serializedlength"] + len(key)]. *)
Definition key_length (key details : pyval) : result Z :=
  let? details := parse_details details in
  let? serializedlength := dict_item details (KBytes "serializedlength") in
  let? n := py_len key in
  py_add_int serializedlength n.

(** The six counters of the loop. *)
Record counters : Type := {
  total_memory : Z;
  volatile_memory : Z;
  persistent_memory : Z;
  total_keys : Z;
  volatile_keys : Z;
  persistent_keys : Z
}.

Definition counters0 : counters :=
  {| total_memory := 0; volatile_memory := 0; persistent_memory := 0;
     total_keys := 0; volatile_keys := 0; persistent_keys := 0 |}.

(** One turn of the loop, for one [(key, details, ttl)]. *)
Definition accumulate_step (c : counters) (t : pyval * pyval * pyval)
  : result counters :=
  let '(key, details, ttl) := t in
  let? length := key_length key details in
  let c :=
    if truthy ttl then
      {| total_memory := total_memory c;
         volatile_memory := volatile_memory c;
         persistent_memory := persistent_memory c + length;
         total_keys := total_keys c;
         volatile_keys := volatile_keys c;
         persistent_keys := persistent_keys c + 1 |}
    else
      {| total_memory := total_memory c;
         volatile_memory := volatile_memory c + length;
         persistent_memory := persistent_memory c;
         total_keys := total_keys c;
         volatile_keys := volatile_keys c + 1;
         persistent_keys := persistent_keys c |} in
  Ok {| total_memory := total_memory c + length;
        volatile_memory := volatile_memory c;
        persistent_memory := persistent_memory c;
        total_keys := total_keys c + 1;
        volatile_keys := volatile_keys c;
        persistent_keys := persistent_keys c |}.

Fixpoint accumulate (c : counters) (l : list (pyval * pyval * pyval))
  : result counters :=
  match l with
  | [] => Ok c
  | t :: l' => let? c' := accumulate_step c t in accumulate c' l'
  end.

(** [a / b] on two integers. *)
Definition py_truediv (a b : Z) : result Q :=
  if b =? 0 then Raise ZeroDivisionError
  else Ok (inject_Z a / inject_Z b)%Q.

(** [x * v] for a float [x]. *)
Definition py_float_mul (x : Q) (v : pyval) : result Q :=
  match v with
  | VInt s => Ok (x * inject_Z s)%Q
  | _ => Raise TypeError
  end.

(** [(memory / keys) * size if keys else 0]. *)
Definition scale (memory keys : Z) (size : pyval) : result Q :=
  if truthy (VInt keys) then
    let? mean := py_truediv memory keys in
    py_float_mul mean size
  else Ok 0%Q.

(** The dict that [_get_db_summary] returns; the three estimates are its
    entries [total_memory], [volatile_memory] and [persistent_memory]. *)
Record DbSummary : Type := {
  size : pyval;
  total_memory_estimate : Q;
  volatile_memory_estimate : Q;
  persistent_memory_estimate : Q
}.

Definition summarise (size : pyval) (c : counters) : result DbSummary :=
  let? total := scale (total_memory c) (total_keys c) size in
  let? persistent := scale (persistent_memory c) (persistent_keys c) size in
  let? volatile := scale (volatile_memory c) (volatile_keys c) size in
  Ok {| size := size;
        total_memory_estimate := total;
        volatile_memory_estimate := volatile;
        persistent_memory_estimate := persistent |}.

Section Sampler.
Context {W : Type}.
Local Open Scope io_scope.

(** First batch: the size of the database and the random draws, then
    [sorted(set(results))]. *)
Definition sample_keys (conn : Conn W) (self : RedisServer) (db : pyval)
  : M W (pyval * list pyval) :=
  _ <- select conn db ;;
  results <- execute conn (DBSIZE :: repeat RANDOMKEY (sampling_threshold self)) ;;
  match results with
  | [] => throw IndexError
  | size :: results =>
      distinct <- lift (py_set results) ;;
      keys <- lift (py_sorted distinct) ;;
      ret (size, keys)
  end.

(** Second batch: [DEBUG OBJECT] and [TTL] for every key, and the
    triples that the loop walks. *)
Definition sample_details (conn : Conn W) (keys : list pyval)
  : M W (list (pyval * pyval * pyval)) :=
  results <- execute conn (flat_map (fun key => [DEBUG_OBJECT key; TTL key]) keys) ;;
  ret (zip3 keys (evens results) (odds results)).

Definition _get_db_summary (conn : Conn W) (self : RedisServer) (db : pyval)
  : M W DbSummary :=
  sk <- sample_keys conn self db ;;
  triples <- sample_details conn (snd sk) ;;
  c <- lift (accumulate counters0 triples) ;;
  lift (summarise (fst sk) c).
End Sampler.

(** ** Key details *)

Section KeyDetails.
Context {W : Type}.
Local Open Scope io_scope.

(** [VALUE_GETTERS[ty]]: the table is looked up with the value itself, so
    a byte string never finds an entry that is keyed by text.  Lists and
    dicts cannot be keys.  [_get_key_info] only ever leaves text or bytes
    under [type]; for the values it never leaves there the lookup is
    taken to fail like the others. *)
Definition value_getter_for (ty : pyval) : result (@value_getter W) :=
  match ty with
  | VStr s => dict_item VALUE_GETTERS (KStr s)
  | VBytes b => dict_item VALUE_GETTERS (KBytes b)
  | VList _ | VDict _ => Raise TypeError
  | VNone | VInt _ => Raise (KeyError (KStr ""))
  end.

(** [ty in ("list", "zset")]. *)
Definition is_list_or_zset (ty : pyval) : bool :=
  match ty with
  | VStr s => String.eqb s "list" || String.eqb s "zset"
  | _ => false
  end.

(** A sequence of pairs as one value (tuples and views are carried as
    lists). *)
Definition pairs_value (data : list (pyval * pyval)) : pyval :=
  VList (map (fun pv => VList [fst pv; snd pv]) data).

Definition _get_key_details (conn : Conn W) (db key : pyval)
  : M W (dict pyval) :=
  _ <- select conn db ;;
  details <- _get_key_info conn key ;;
  let details := dict_set details (KStr "db") db in
  ty <- lift (dict_item details (KStr "type")) ;;
  if is_list_or_zset ty then ret (dict_set details (KStr "data") VNone)
  else
    getter <- lift (value_getter_for ty) ;;
    data <- getter conn key start_default end_default ;;
    ret (dict_set details (KStr "data") (pairs_value data)).
End KeyDetails.

(** ** Database enumerator *)

(** A connection that also scans: [SCAN] answers the next cursor and a
    list of key names, as byte strings. *)
Record ScanConn (W : Type) : Type := {
  connection : Conn W;
  scan : Z -> Z -> W -> result (pyval * list string) * W
}.
Arguments connection {W} _.
Arguments scan {W} _ _ _ _.

(** [key.decode()]: strict UTF-8; [UnicodeDecodeError] is a [ValueError]. *)
Definition bytes_decode (b : string) : result string :=
  if utf8_valid (codes b) then Ok b else Raise ValueError.

(** What [_get_db_details] returns: the entries [keys] and [cursor]. *)
Record DbPage : Type := {
  page_keys : dict (dict pyval);
  page_cursor : pyval
}.

Definition cursor_default : Z := 0.
Definition count_default : Z := 50.

Section Enumerator.
Context {W : Type}.
Local Open Scope io_scope.

(** The loop over the scanned keys, from the entries gathered so far. *)
Fixpoint key_details_loop (conn : Conn W) (scanned : list string)
    (key_details : dict (dict pyval)) : M W (dict (dict pyval)) :=
  match scanned with
  | [] => ret key_details
  | key :: rest =>
      key <- lift (bytes_decode key) ;;
      info <- _get_key_info conn (VStr key) ;;
      key_details_loop conn rest (dict_set key_details (KStr key) info)
  end.

Definition _get_db_details (sconn : ScanConn W) (db : pyval) (cursor count : Z)
  : M W DbPage :=
  let conn := connection sconn in
  _ <- select conn db ;;
  r <- scan sconn cursor count ;;
  key_details <- key_details_loop conn (snd r) [] ;;
  ret {| page_keys := key_details; page_cursor := fst r |}.
End Enumerator.

(** ** Concrete stores, for the examples *)

Definition refused {W A} : W -> result A * W :=
  fun w => (Raise (ConnectionError "Connection refused"), w).

(** A store that nobody can reach. *)
Definition down_conn : Conn unit :=
  {| select := fun _ => refused;
     type_of := fun _ => refused;
     info_cmd := refused;
     slowlog_get_cmd := fun _ => refused;
     slowlog_len_cmd := refused;
     lrange := fun _ _ _ => refused;
     zrange := fun _ _ _ => refused;
     get := fun _ => refused;
     smembers := fun _ => refused;
     hgetall := fun _ => refused;
     execute := fun _ => refused |}.

(** A store that does not change, described by what it answers: [reply i c]
    is the answer to command [c] queued at position [i] of a batch. *)
Fixpoint replies_from (reply : nat -> command -> pyval) (i : nat)
    (batch : list command) : list pyval :=
  match batch with
  | [] => []
  | c :: batch' => reply i c :: replies_from reply (S i) batch'
  end.

Definition frozen_conn (ty : string) (info : dict pyval)
    (log : list (dict pyval)) (items : list pyval) (fields : dict pyval)
    (reply : nat -> command -> pyval) : Conn unit :=
  {| select := fun _ w => (Ok (VBytes "OK"), w);
     type_of := fun _ w => (Ok ty, w);
     info_cmd := fun w => (Ok info, w);
     slowlog_get_cmd := fun n w =>
       (Ok (match n with
            | Some k => firstn (Z.to_nat k) log
            | None => log
            end), w);
     slowlog_len_cmd := fun w => (Ok (VInt (Z.of_nat (List.length log))), w);
     lrange := fun _ _ _ w => (Ok items, w);
     zrange := fun _ _ _ w => (Ok items, w);
     get := fun _ w => (Ok (hd VNone items), w);
     smembers := fun _ w => (Ok items, w);
     hgetall := fun _ w => (Ok fields, w);
     execute := fun batch w => (Ok (replies_from reply 0 batch), w) |}.

(** Formatting functions for the examples. *)
Definition plain_format (v : pyval) : string :=
  match v with
  | VStr s => s
  | VBytes b => b
  | _ => "?"
  end.
Definition plain_args (e : exn) : string :=
  match e with
  | ResponseError msg | ConnectionError msg => "('" ++ msg ++ "',)"
  | _ => "()"
  end.

(** A store whose world is the number of clients connected right now. *)
Definition busy_conn : Conn Z :=
  {| select := fun _ w => (Ok (VBytes "OK"), w);
     type_of := fun _ w => (Ok "none", w);
     info_cmd := fun w =>
       (Ok [ (KStr "used_memory_human", VStr "1.5M");
             (KStr "connected_clients", VInt w) ], w);
     slowlog_get_cmd := fun _ w => (Ok [], w);
     slowlog_len_cmd := fun w => (Ok (VInt 0), w);
     lrange := fun _ _ _ w => (Ok [], w);
     zrange := fun _ _ _ w => (Ok [], w);
     get := fun _ w => (Ok VNone, w);
     smembers := fun _ w => (Ok [], w);
     hgetall := fun _ w => (Ok [], w);
     execute := fun batch w => (Ok (map (fun _ => VNone) batch), w) |}.

(** A store where another client deletes the key right after its type was
    read: the world tells whether the key is still there, and the batch
    on the missing key is answered with an error. *)
Definition vanishing_conn : Conn bool :=
  {| select := fun _ w => (Ok (VBytes "OK"), w);
     type_of := fun _ (w : bool) =>
       (Ok (if w then "string" else "none"), false);
     info_cmd := fun w => (Ok [], w);
     slowlog_get_cmd := fun _ w => (Ok [], w);
     slowlog_len_cmd := fun w => (Ok (VInt 0), w);
     lrange := fun _ _ _ w => (Ok [], w);
     zrange := fun _ _ _ w => (Ok [], w);
     get := fun _ w => (Ok VNone, w);
     smembers := fun _ w => (Ok [], w);
     hgetall := fun _ w => (Ok [], w);
     execute := fun batch (w : bool) =>
       if w then (Ok [VInt 1; VBytes "embstr"; VInt 0; VInt 5; VInt (-1)], w)
       else (Raise (ResponseError "ERR no such key"), w) |}.

(** A database of two keys: the string [a], which never expires (the
    client reports no ttl as [None] or as [-1], by its version), and the
    list [b], which expires in 100 seconds.  The random draws alternate. *)
Definition debug_a : string :=
  "Value at:0x7f3a5c refcount:1 encoding:embstr serializedlength:2 lru:8109 lru_seconds_idle:4".
Definition debug_b : string :=
  "Value at:0x7f3a9e refcount:1 encoding:quicklist serializedlength:17 lru:8110 lru_seconds_idle:3".

Definition two_keys_reply (i : nat) (c : command) : pyval :=
  match c with
  | DBSIZE => VInt 2
  | RANDOMKEY => if Nat.even i then VBytes "b" else VBytes "a"
  | DEBUG_OBJECT (VBytes "a") => VBytes debug_a
  | DEBUG_OBJECT _ => VBytes debug_b
  | TTL (VBytes "a") => VNone
  | TTL _ => VInt 100
  | _ => VNone
  end.
Definition two_keys_conn : Conn unit :=
  frozen_conn "string" [] [] [] [] two_keys_reply.

(** A database with the list [b] alone. *)
Definition one_key_reply (i : nat) (c : command) : pyval :=
  match c with
  | DBSIZE => VInt 1
  | RANDOMKEY => VBytes "b"
  | DEBUG_OBJECT _ => VBytes debug_b
  | TTL _ => VInt 100
  | _ => VNone
  end.
Definition one_key_conn : Conn unit :=
  frozen_conn "list" [] [] [] [] one_key_reply.

(** A server configured to draw no random key at all. *)
Definition server_without_draws : RedisServer :=
  {| sampling_threshold := 0; sampling_size := 200; cached_stats := None |}.

(** A store that tells the type of a key and then drops the connection. *)
Definition dropping_conn : Conn unit :=
  {| select := fun _ w => (Ok (VBytes "OK"), w);
     type_of := fun _ w => (Ok "hash", w);
     info_cmd := refused;
     slowlog_get_cmd := fun _ => refused;
     slowlog_len_cmd := refused;
     lrange := fun _ _ _ => refused;
     zrange := fun _ _ _ => refused;
     get := fun _ => refused;
     smembers := fun _ => refused;
     hgetall := fun _ => refused;
     execute := fun _ => refused |}.

(** The answers of a store to the batch of the key inspector. *)
Definition inspector_reply (i : nat) (c : command) : pyval :=
  match c with
  | OBJECT "ENCODING" _ => VBytes "embstr"
  | OBJECT _ _ => VInt 1
  | LLEN _ | STRLEN _ | SCARD _ | ZCOUNT _ _ _ | HLEN _ => VInt 5
  | TTL _ => VInt (-1)
  | _ => VNone
  end.

(** A store that answers one page of keys to every scan. *)
Definition page_conn (ty : string) (page : list string) : ScanConn unit :=
  {| connection := frozen_conn ty [] [] [VBytes "hello"] [] inspector_reply;
     scan := fun _ _ w => (Ok (VInt 17, page), w) |}.

(** ** Vocabulary of the statements *)

(** The supported value types. *)
Definition supported_types : list string :=
  ["string"; "list"; "set"; "zset"; "hash"].






Definition starts_with_ERROR (v : rendered) : bool :=
  match v with
  | Raw (VStr s) => String.prefix "ERROR" s
  | _ => false
  end.

(** An empty or zero default: [0], an empty string, an empty list, an
    empty mapping or [None]. *)
Definition empty_or_zero (v : rendered) : bool :=
  match v with
  | Raw VNone | Raw (VInt 0) | Raw (VBytes "") | Raw (VStr "")
  | Raw (VList []) | Raw (VDict []) | Mapping [] => true
  | _ => false
  end.

(** The fields of the server statistics besides [status], [clients] and
    [slowlog]. *)
Definition remaining_fields : list pykey :=
  [ KStr "memory"; KStr "details"; KStr "brief_details"; KStr "slowlog_len" ].

(** A degraded result whose remaining fields are all empty or zero. *)
Definition degraded_with_empty_defaults (d : dict rendered) : Prop :=
  (exists v, dict_get d (KStr "status") = Some v /\ starts_with_ERROR v = true)
  /\ dict_get d (KStr "clients") = Some (Raw (VStr "n/a"))
  /\ dict_get d (KStr "slowlog") = Some (Raw (VList []))
  /\ forall k, In k remaining_fields ->
       exists v, dict_get d k = Some v /\ empty_or_zero v = true.

Definition NA : pyval := VStr "n/a".



(** The components of a triple of the sampling loop. *)
Definition key_of (t : pyval * pyval * pyval) : pyval := fst (fst t).
Definition details_of (t : pyval * pyval * pyval) : pyval := snd (fst t).
Definition ttl_of (t : pyval * pyval * pyval) : pyval := snd t.

(** The triples whose ttl is true, and the others. *)
Definition with_ttl (l : list (pyval * pyval * pyval)) :=
  filter (fun t => truthy (ttl_of t)) l.
Definition without_ttl (l : list (pyval * pyval * pyval)) :=
  filter (fun t => negb (truthy (ttl_of t))) l.

(** A key name that decodes. *)
Definition decodable (b : string) : bool := utf8_valid (codes b).

(** Every entry of a page is filed under the name it carries. *)
Definition filed_by_name (d : dict (dict pyval)) : Prop :=
  forall k info, dict_get d k = Some info ->
                 dict_get info (KStr "name") = Some (val_of_key k).






(** How many times a byte occurs. *)
Fixpoint count_byte (c : ascii) (s : string) : nat :=
  match s with
  | EmptyString => O
  | String c' s' => (if Ascii.eqb c' c then 1 else 0) + count_byte c s'
  end.

(** No byte of [s] satisfies [p]. *)
Fixpoint no_char (p : ascii -> bool) (s : string) : bool :=
  match s with
  | EmptyString => true
  | String c s' => negb (p c) && no_char p s'
  end.

Definition is_colon (c : ascii) : bool := Ascii.eqb c colon.

(** A non-empty run of bytes without white space. *)
Definition plain_word (s : string) : bool :=
  negb (String.eqb s "") && no_char is_space s.

(** The tokens of a text reply to [DEBUG OBJECT]: a bare word, or a field
    and its value around one colon. *)
Inductive token : Type :=
| Word (w : string)
| Field (k v : string).

Definition token_text (t : token) : string :=
  match t with
  | Word w => w
  | Field k v => k ++ String colon v
  end.

Definition token_ok (t : token) : bool :=
  match t with
  | Word w => plain_word w && no_char is_colon w
  | Field k v =>
      no_char is_space k && no_char is_colon k
      && no_char is_space v && no_char is_colon v
  end.

Definition token_pairs (ts : list token) : list (pykey * pyval) :=
  flat_map (fun t => match t with
                     | Word _ => []
                     | Field k v => [(KBytes k, safeint v)]
                     end) ts.


(** [a] comes before [b] in the order of [sorted]. *)
Definition py_before (a b : pyval) : Prop := py_lt a b = Ok true.

(** A store without keys: every draw answers [None]. *)
Definition empty_reply (i : nat) (c : command) : pyval :=
  match c with
  | DBSIZE => VInt 0
  | _ => VNone
  end.
Definition empty_conn : Conn unit := frozen_conn "none" [] [] [] [] empty_reply.

(** A store whose second batch fails: the sampled key is gone. *)
Definition expiring_conn : Conn unit :=
  {| select := fun _ w => (Ok (VBytes "OK"), w);
     type_of := fun _ w => (Ok "string", w);
     info_cmd := fun w => (Ok [], w);
     slowlog_get_cmd := fun _ w => (Ok [], w);
     slowlog_len_cmd := fun w => (Ok (VInt 0), w);
     lrange := fun _ _ _ w => (Ok [], w);
     zrange := fun _ _ _ w => (Ok [], w);
     get := fun _ w => (Ok VNone, w);
     smembers := fun _ w => (Ok [], w);
     hgetall := fun _ w => (Ok [], w);
     execute := fun batch w =>
       match batch with
       | DBSIZE :: _ => (Ok (replies_from one_key_reply 0 batch), w)
       | _ => (Raise (ResponseError "ERR no such key"), w)
       end |}.

(** An item of [INFO] that the statistics can show: its key is text, it is
    not [last_save_time], and if it is [uptime_in_seconds] its value is an
    integer that [timedelta] accepts. *)
Definition showable_item (kv : pykey * pyval) : bool :=
  match fst kv with
  | KStr s =>
      if String.eqb s "uptime_in_seconds" then
        match snd kv with
        | VInt z => between (-999999999) 999999999 (z / 86400)
        | _ => false
        end
      else negb (String.eqb s "last_save_time")
  | KBytes _ => false
  end.

Definition showable (info : dict pyval) : bool := forallb showable_item info.

Definition status_of (d : dict rendered) : option rendered :=
  dict_get d (KStr "status").

(** A healthy store with the metrics the page needs. *)
Definition healthy_info : dict pyval :=
  [ (KStr "redis_version", VStr "6.2.6");
    (KStr "uptime_in_seconds", VInt 90);
    (KStr "used_memory_human", VStr "1.5M");
    (KStr "connected_clients", VInt 3);
    (KStr "db0", VStr "keys=2,expires=1") ].
Definition healthy_conn : Conn unit :=
  frozen_conn "none" healthy_info [] [] [] (fun _ _ => VNone).



(** A store that is up but whose [INFO] has no [used_memory_human]. *)
Definition sparse_conn : Conn unit :=
  frozen_conn "none" [ (KStr "connected_clients", VInt 3) ] [] [] []
    (fun _ _ => VNone).


(** The per-database items of [INFO], with the two bytes [db] taken off
    their keys. *)
Definition db_items (info : dict pyval) : list (pykey * rendered) :=
  flat_map (fun kv => match fst kv with
                      | KStr s => if String.prefix "db" s
                                  then [(drop2 (fst kv), Raw (snd kv))]
                                  else []
                      | KBytes _ => []
                      end) info.

Definition text_key (kv : pykey * pyval) : bool :=
  match fst kv with
  | KStr _ => true
  | KBytes _ => false
  end.

(** How a metric is shown in the brief details: a duration for
    [uptime_in_seconds], the raw value otherwise. *)
Definition shown_value (s : string) (v : pyval) : rendered :=
  if String.eqb s "uptime_in_seconds"
  then match v with
       | VInt z => Timedelta z
       | _ => Raw v
       end
  else Raw v.

(** A metric name that one of the filters lets through. *)
Definition allowed (s : string) : bool :=
  existsb (fun name => String.prefix name s) REDISBOARD_DETAIL_FILTERS.

Definition brief_hits (name : string) (kv : pykey * pyval)
  : list (pykey * rendered) :=
  match fst kv with
  | KStr s => if String.prefix name s
              then [(KStr s, shown_value s (snd kv))]
              else []
  | KBytes _ => []
  end.

Definition brief_items (info : dict pyval) : list (pykey * rendered) :=
  flat_map (fun name => flat_map (brief_hits name) info)
    REDISBOARD_DETAIL_FILTERS.

(** * Properties *)

(** ** Helpers of the monads *)

Lemma bind_ok {W A B} (m : M W A) (k : A -> M W B) w a w' :
  m w = (Ok a, w') -> bind m k w = k a w'.
Proof. intros H. unfold bind. now rewrite H. Qed.

Lemma bind_raise {W A B} (m : M W A) (k : A -> M W B) w e w' :
  m w = (Raise e, w') -> bind m k w = (Raise e, w').
Proof. intros H. unfold bind. now rewrite H. Qed.

(** ** The stats prettifier *)

Lemma prettify_seconds (z : Z) :
  between (-999999999) 999999999 (z / 86400) = true ->
  prettify (KStr "uptime_in_seconds") (VInt z)
  = Ok (KStr "uptime_in_seconds", Timedelta z).
Proof. intros H. unfold prettify, timedelta_seconds. cbn. now rewrite H. Qed.

Lemma prettify_other (key : pykey) (value : pyval) :
  key_in key REDISBOARD_DETAIL_SECONDS_KEYS = false ->
  key_in key REDISBOARD_DETAIL_TIMESTAMP_KEYS = false ->
  prettify key value = Ok (key, Raw value).
Proof. intros H1 H2. unfold prettify. now rewrite H1, H2. Qed.

(** C7. A key of the timestamp-valued set is not rendered as a point in
    time: [prettify] looks [fromtimestamp] up in the module [datetime],
    which has no such name (the class [datetime.datetime] has it, and
    [slowlog_get] calls it there), so the call raises [AttributeError]
    whatever the value is. *)
Theorem prettify_timestamp_key_raises (value : pyval) :
  prettify (KStr "last_save_time") value = Raise (AttributeError "fromtimestamp").
Proof. reflexivity. Qed.

(** In [slowlog_get], the same conversion goes through the class and
    succeeds. *)
Lemma slowlog_entry_renders_timestamp (id start_time duration command : pyval) z :
  start_time = VInt z ->
  slowlog_entry [ (KStr "id", id); (KStr "start_time", start_time);
                  (KStr "duration", duration); (KStr "command", command) ]
  = Ok [ (KStr "id", Raw id); (KStr "ts", Datetime z);
         (KStr "duration", Raw duration); (KStr "command", Raw command) ].
Proof. intros ->. reflexivity. Qed.

(** ** The slowlog accessor *)

(** C10. [slowlog_get] ignores its [limit]: all it asks the store is the
    [REDISBOARD_SLOWLOG_LEN] = 10 latest entries, so two calls on stores
    that answer that one request alike yield the same entries, whatever
    the two limits are. *)
Theorem slowlog_get_ignores_limit {W} (conn conn' : Conn W) (limit limit' : Z) (w : W) :
  slowlog_get_cmd conn (Some 10) w = slowlog_get_cmd conn' (Some 10) w ->
  slowlog_get conn limit w = slowlog_get conn' limit' w.
Proof.
  intros H. unfold slowlog_get, REDISBOARD_SLOWLOG_LEN. now rewrite H.
Qed.

Lemma slowlog_get_ignores_limit_witness :
  let conn := frozen_conn "string" []
                [ [ (KStr "id", VInt 7); (KStr "start_time", VInt 1600000000);
                    (KStr "duration", VInt 15000);
                    (KStr "command", VList [VBytes "KEYS"; VBytes "*"]) ] ]
                [] [] (fun _ _ => VNone) in
  slowlog_get conn 1 tt = slowlog_get conn 500 tt
  /\ fst (slowlog_get conn 1 tt)
     = ([ [ (KStr "id", Raw (VInt 7)); (KStr "ts", Datetime 1600000000);
            (KStr "duration", Raw (VInt 15000));
            (KStr "command", Raw (VList [VBytes "KEYS"; VBytes "*"])) ] ], None).
Proof.
  split.
  - apply (slowlog_get_ignores_limit _ _ 1 500 tt). reflexivity.
  - reflexivity.
Defined.

(** ** The type dispatch table *)







(** ** The server statistics *)

Lemma stats_body_info_failure {W} fmt (conn : Conn W) w e w' :
  info_cmd conn w = (Raise e, w') -> stats_body fmt conn w = (Raise e, w').
Proof. intros H. unfold stats_body. now apply bind_raise. Qed.

Lemma stats_first_access {W} fmt args (conn : Conn W) self w :
  cached_stats self = None ->
  fst (fst (stats fmt args conn self w)) = fst (stats_compute fmt args conn w)
  /\ snd (stats fmt args conn self w) = snd (stats_compute fmt args conn w).
Proof.
  intros H. unfold stats. rewrite H.
  now destruct (stats_compute fmt args conn w).
Qed.

(** C3 as the specification words it, refuted: when the store is down the
    degraded result has [memory] set to the text [n/a], which is neither
    empty nor zero, and it has no [db] field at all. *)
Lemma stats_degraded_memory_not_empty :
  let d := fst (fst (stats plain_format plain_args down_conn server tt)) in
  dict_get d (KStr "memory") = Some (Raw (VStr "n/a"))
  /\ dict_get d (KStr "db") = None
  /\ ~ degraded_with_empty_defaults d.
Proof.
  cbn. repeat split.
  intros (_ & _ & _ & H).
  destruct (H (KStr "memory")) as [v [Hv Hz]]; [cbn; tauto|].
  injection Hv as <-. discriminate Hz.
Qed.

(** C3, amended.  Whatever raises inside the [try] block of [stats], a
    failed connection included, the first access to [stats] returns a
    degraded result instead of raising: [status] is [ERROR: ] followed by
    the arguments of the exception, [clients] and [memory] are the text
    [n/a], [details] and [brief_details] are empty, [slowlog] is the empty
    list, [slowlog_len] is 0, and there is no [db] field. *)
Theorem stats_degraded_on_failure {W} fmt args (conn : Conn W) self w exc w' :
  cached_stats self = None ->
  stats_body fmt conn w = (Raise exc, w') ->
  exists d self',
    stats fmt args conn self w = ((d, self'), w')
    /\ dict_get d (KStr "status") = Some (Raw (VStr ("ERROR: " ++ args exc)))
    /\ starts_with_ERROR (Raw (VStr ("ERROR: " ++ args exc))) = true
    /\ dict_get d (KStr "clients") = Some (Raw (VStr "n/a"))
    /\ dict_get d (KStr "memory") = Some (Raw (VStr "n/a"))
    /\ dict_get d (KStr "details") = Some (Raw (VDict []))
    /\ dict_get d (KStr "brief_details") = Some (Raw (VDict []))
    /\ dict_get d (KStr "slowlog") = Some (Raw (VList []))
    /\ dict_get d (KStr "slowlog_len") = Some (Raw (VInt 0))
    /\ dict_get d (KStr "db") = None.
Proof.
  intros Hcache Hbody.
  unfold stats, stats_compute. rewrite Hcache, Hbody.
  do 2 eexists. split; [reflexivity|].
  cbn. repeat split.
Qed.

Lemma stats_degraded_on_failure_witness :
  exists d self',
    stats plain_format plain_args down_conn server tt = ((d, self'), tt)
    /\ dict_get d (KStr "status")
       = Some (Raw (VStr "ERROR: ('Connection refused',)"))
    /\ dict_get d (KStr "clients") = Some (Raw (VStr "n/a"))
    /\ dict_get d (KStr "slowlog") = Some (Raw (VList [])).
Proof.
  destruct (stats_degraded_on_failure plain_format plain_args down_conn server tt
              (ConnectionError "Connection refused") tt)
    as (d & self' & H & Hs & _ & Hc & _ & _ & _ & Hl & _).
  - reflexivity.
  - reflexivity.
  - exists d, self'. repeat split; assumption.
Defined.

(** The bug of [prettify] reaches the statistics: a healthy store that
    reports [last_save_time] gets the degraded result too. *)
Lemma stats_degraded_by_last_save_time :
  let conn := frozen_conn "none"
                [ (KStr "used_memory_human", VStr "1.5M");
                  (KStr "connected_clients", VInt 3);
                  (KStr "last_save_time", VInt 1600000000) ]
                [] [] [] (fun _ _ => VNone) in
  fst (stats_compute plain_format plain_args conn tt)
  = stats_degraded plain_args (AttributeError "fromtimestamp").
Proof. reflexivity. Qed.

(** C8 as the specification words it, refuted: the store has one client at
    the first request and two at the second; the second request still
    reports one, not what a fresh fetch would give. *)
Lemma stats_second_access_is_stale :
  let first := info plain_format plain_args busy_conn server 1 in
  let second := info plain_format plain_args busy_conn (snd (fst first)) 2 in
  dict_get (fst (fst second)) (KStr "clients") = Some (Raw (VInt 1))
  /\ dict_get (fst (stats_compute plain_format plain_args busy_conn 2))
       (KStr "clients") = Some (Raw (VInt 2))
  /\ fst (fst second) <> fst (stats_compute plain_format plain_args busy_conn 2).
Proof.
  cbn. repeat split. intros H. discriminate H.
Qed.

(** C8, amended.  [stats] is a cached property of the one [server] object:
    once a request has read it, the value is kept in the instance, and
    every later request, whatever the store has become, gets the kept
    value and sends nothing to the store. *)
Theorem stats_cached_after_first_access {W} fmt args (conn conn' : Conn W)
    (srv : RedisServer) (w w' : W) :
  let first := info fmt args conn srv w in
  info fmt args conn' (snd (fst first)) w' = (fst first, w').
Proof.
  unfold info, stats. destruct (cached_stats srv) as [value|] eqn:Hc; cbn.
  - rewrite Hc. reflexivity.
  - destruct (stats_compute fmt args conn w) as [value w1]. reflexivity.
Qed.

(** ** The key inspector *)

Lemma key_info_batch_known (obj_type : string) (key : pyval) query :
  dict_get LENGTH_GETTERS (KBytes obj_type) = Some query ->
  key_info_batch obj_type key
  = Ok [ OBJECT "REFCOUNT" key; OBJECT "ENCODING" key; OBJECT "IDLETIME" key;
         query key; TTL key ].
Proof. intros H. unfold key_info_batch, dict_item. now rewrite H. Qed.

Lemma key_info_batch_unknown (obj_type : string) (key : pyval) :
  dict_get LENGTH_GETTERS (KBytes obj_type) = None ->
  key_info_batch obj_type key = Raise (KeyError (KBytes obj_type)).
Proof. intros H. unfold key_info_batch, dict_item. now rewrite H. Qed.

(** The outcome of [_get_key_info] once the type is known, by the outcome
    of the batch. *)
Lemma get_key_info_cases {W} (conn : Conn W) key w obj_type w1 query :
  type_of conn key w = (Ok obj_type, w1) ->
  dict_get LENGTH_GETTERS (KBytes obj_type) = Some query ->
  _get_key_info conn key w =
  match execute conn
          [ OBJECT "REFCOUNT" key; OBJECT "ENCODING" key; OBJECT "IDLETIME" key;
            query key; TTL key ] w1 with
  | (Ok [refcount; encoding; idletime; obj_length; obj_ttl], w2) =>
      (Ok [ (KStr "type", _decode_bytes (VBytes obj_type));
            (KStr "name", key);
            (KStr "length", obj_length);
            (KStr "ttl", obj_ttl);
            (KStr "refcount", refcount);
            (KStr "encoding", _decode_bytes encoding);
            (KStr "idletime", idletime) ], w2)
  | (Ok _, w2) => (Raise ValueError, w2)
  | (Raise (ResponseError msg), w2) =>
      (Ok [ (KStr "type", VBytes obj_type);
            (KStr "name", key);
            (KStr "length", NA);
            (KStr "error", VStr msg);
            (KStr "ttl", NA);
            (KStr "refcount", NA);
            (KStr "encoding", NA);
            (KStr "idletime", NA) ], w2)
  | (Raise e, w2) => (Raise e, w2)
  end.
Proof.
  intros Htype Hq.
  unfold _get_key_info. rewrite (bind_ok _ _ _ _ _ Htype).
  unfold try_except_ResponseError, bind, lift.
  rewrite (key_info_batch_known _ _ _ Hq).
  destruct (execute conn _ w1) as [[replies|e] w2].
  - destruct replies as [|r1 [|r2 [|r3 [|r4 [|r5 [|r6 rest]]]]]]; reflexivity.
  - destruct e; reflexivity.
Qed.

Lemma get_key_info_unknown_type {W} (conn : Conn W) key w obj_type w1 :
  type_of conn key w = (Ok obj_type, w1) ->
  dict_get LENGTH_GETTERS (KBytes obj_type) = None ->
  _get_key_info conn key w = (Raise (KeyError (KBytes obj_type)), w1).
Proof.
  intros Htype Hq.
  unfold _get_key_info. rewrite (bind_ok _ _ _ _ _ Htype).
  unfold try_except_ResponseError, bind, lift.
  now rewrite (key_info_batch_unknown _ _ Hq).
Qed.




(** ** The database sampler *)

Lemma py_eqb_refl (v : pyval) : hashable v = true -> py_eqb v v = true.
Proof.
  destruct v; cbn; intros H; try discriminate; try reflexivity.
  - apply Z.eqb_refl.
  - apply String.eqb_refl.
  - apply String.eqb_refl.
Qed.

Lemma py_set_hashable (l s : list pyval) :
  py_set l = Ok s -> forall v, In v s -> hashable v = true.
Proof.
  revert s. induction l as [|x l IH]; intros s H v Hv; cbn in H.
  - injection H as <-. destruct Hv.
  - destruct (hashable x) eqn:Hx; [|discriminate].
    destruct (py_set l) as [s'|e]; cbn in H; [|discriminate].
    injection H as <-.
    destruct (existsb (py_eqb x) s'); [eauto|].
    destruct Hv as [<-|Hv]; eauto.
Qed.

Lemma py_set_NoDup (l s : list pyval) : py_set l = Ok s -> NoDup s.
Proof.
  revert s. induction l as [|x l IH]; intros s H; cbn in H.
  - injection H as <-. constructor.
  - destruct (hashable x) eqn:Hx; [|discriminate].
    destruct (py_set l) as [s'|e]; cbn in H; [|discriminate].
    injection H as <-.
    destruct (existsb (py_eqb x) s') eqn:Hex; [now apply IH|].
    constructor; [|now apply IH].
    intros Hin.
    assert (existsb (py_eqb x) s' = true) as Habs.
    { apply existsb_exists. exists x. split; [exact Hin|now apply py_eqb_refl]. }
    congruence.
Qed.

Lemma insert_sorted_perm (x : pyval) (l r : list pyval) :
  insert_sorted x l = Ok r -> Permutation (x :: l) r.
Proof.
  revert r. induction l as [|y l IH]; intros r H; cbn in H.
  - injection H as <-. apply Permutation_refl.
  - destruct (py_lt x y) as [[|]|e]; cbn in H; try discriminate.
    + injection H as <-. apply Permutation_refl.
    + destruct (insert_sorted x l) as [r'|e]; cbn in H; [|discriminate].
      injection H as <-.
      eapply Permutation_trans; [apply perm_swap|].
      apply perm_skip. now apply IH.
Qed.

Lemma py_sorted_perm (l r : list pyval) : py_sorted l = Ok r -> Permutation l r.
Proof.
  revert r. induction l as [|x l IH]; intros r H; cbn in H.
  - injection H as <-. constructor.
  - destruct (py_sorted l) as [s|e]; cbn in H; [|discriminate].
    eapply Permutation_trans; [apply perm_skip, IH; reflexivity|].
    now apply insert_sorted_perm.
Qed.

(** The keys of the second batch are pairwise distinct. *)
Lemma sample_keys_NoDup {W} (conn : Conn W) self db w size keys w1 :
  sample_keys conn self db w = (Ok (size, keys), w1) -> NoDup keys.
Proof.
  unfold sample_keys, bind, lift, ret, throw.
  destruct (select conn db w) as [[_|e] w0]; [|discriminate].
  destruct (execute conn _ w0) as [[results|e] w0']; [|discriminate].
  destruct results as [|size0 results]; [discriminate|].
  destruct (py_set results) as [distinct|e] eqn:Hset; [|discriminate].
  destruct (py_sorted distinct) as [sorted|e] eqn:Hsort; [|discriminate].
  intros [=<- <- <-].
  eapply Permutation_NoDup; [eapply py_sorted_perm, Hsort|].
  eapply py_set_NoDup, Hset.
Qed.



(** One turn of the loop. *)
Lemma accumulate_step_spec (c c' : counters) (t : pyval * pyval * pyval) :
  accumulate_step c t = Ok c' ->
  exists length,
    key_length (key_of t) (details_of t) = Ok length
    /\ total_memory c' = total_memory c + length
    /\ total_keys c' = total_keys c + 1
    /\ if truthy (ttl_of t)
       then persistent_memory c' = persistent_memory c + length
            /\ persistent_keys c' = persistent_keys c + 1
            /\ volatile_memory c' = volatile_memory c
            /\ volatile_keys c' = volatile_keys c
       else volatile_memory c' = volatile_memory c + length
            /\ volatile_keys c' = volatile_keys c + 1
            /\ persistent_memory c' = persistent_memory c
            /\ persistent_keys c' = persistent_keys c.
Proof.
  destruct t as [[key details] ttl]. unfold accumulate_step, key_of, details_of, ttl_of.
  cbn [fst snd].
  destruct (key_length key details) as [length|e]; cbn; [|discriminate].
  intros [=<-]. exists length. split; [reflexivity|].
  destruct (truthy ttl); cbn; repeat split; reflexivity.
Qed.

Lemma accumulate_counts (l : list (pyval * pyval * pyval)) (c c' : counters) :
  accumulate c l = Ok c' ->
  total_keys c' = total_keys c + Z.of_nat (List.length l)
  /\ persistent_keys c' = persistent_keys c + Z.of_nat (List.length (with_ttl l))
  /\ volatile_keys c' = volatile_keys c + Z.of_nat (List.length (without_ttl l)).
Proof.
  revert c. induction l as [|t l IH]; intros c H; cbn in H.
  - injection H as <-. cbn. lia.
  - destruct (accumulate_step c t) as [c1|e] eqn:Hstep; cbn in H; [|discriminate].
    destruct (accumulate_step_spec _ _ _ Hstep) as (len & _ & _ & Hk & Hb).
    destruct (IH _ H) as (H1 & H2 & H3).
    unfold with_ttl, without_ttl in *. cbn [filter List.length].
    destruct (truthy (ttl_of t)); cbn [negb List.length]; lia.
Qed.


(** The run of the whole function, from the runs of its parts. *)
Lemma get_db_summary_run {W} (conn : Conn W) self db w size keys w1 triples w2 c :
  sample_keys conn self db w = (Ok (size, keys), w1) ->
  sample_details conn keys w1 = (Ok triples, w2) ->
  accumulate counters0 triples = Ok c ->
  _get_db_summary conn self db w = (summarise size c, w2).
Proof.
  intros Hk Hd Ha. unfold _get_db_summary.
  rewrite (bind_ok _ _ _ _ _ Hk). cbn [fst snd].
  rewrite (bind_ok _ _ _ _ _ Hd).
  unfold bind, lift. now rewrite Ha.
Qed.


Lemma scale_zero (memory : Z) (size : pyval) : scale memory 0 size = Ok 0%Q.
Proof. reflexivity. Qed.

Lemma scale_no_division_error (memory keys : Z) (size : pyval) :
  scale memory keys size <> Raise ZeroDivisionError.
Proof.
  unfold scale, py_truediv, truthy.
  destruct (keys =? 0); cbn; [discriminate|].
  destruct size; cbn; discriminate.
Qed.


(** C1. The two buckets are the wrong way round.  On a database whose only
    key [b] has a ttl of 100 seconds, the loop counts the key and its
    length (17 + 1) in [persistent_keys] and [persistent_memory] and leaves
    the volatile bucket empty, so the summary reports 18 bytes of
    persistent memory and no volatile memory; [total_keys] is incremented
    as it should be. *)
Theorem sampler_key_with_ttl_counted_persistent :
  accumulate counters0 [(VBytes "b", VBytes debug_b, VInt 100)]
  = Ok {| total_memory := 18; volatile_memory := 0; persistent_memory := 18;
          total_keys := 1; volatile_keys := 0; persistent_keys := 1 |}
  /\ fst (_get_db_summary one_key_conn server (VStr "0") tt)
     = Ok {| size := VInt 1;
             total_memory_estimate := 18;
             volatile_memory_estimate := 0;
             persistent_memory_estimate := 18 |}.
Proof. split; vm_compute; reflexivity. Qed.

(** The same in general: a true ttl sends the key to the persistent
    bucket, anything else to the volatile one. *)
Lemma accumulate_step_buckets (c : counters) (key details ttl : pyval) (length : Z) :
  key_length key details = Ok length ->
  exists c', accumulate_step c (key, details, ttl) = Ok c'
    /\ total_keys c' = total_keys c + 1
    /\ (truthy ttl = true ->
        persistent_keys c' = persistent_keys c + 1
        /\ persistent_memory c' = persistent_memory c + length
        /\ volatile_keys c' = volatile_keys c
        /\ volatile_memory c' = volatile_memory c)
    /\ (truthy ttl = false ->
        volatile_keys c' = volatile_keys c + 1
        /\ volatile_memory c' = volatile_memory c + length
        /\ persistent_keys c' = persistent_keys c
        /\ persistent_memory c' = persistent_memory c).
Proof.
  intros H. unfold accumulate_step. rewrite H. cbn [rbind].
  eexists. split; [reflexivity|].
  destruct (truthy ttl); cbn; repeat split; intros; try discriminate;
    repeat split; reflexivity.
Qed.



(** C5. When the loop ends with [total_keys = 0], the function returns
    and its three estimates are exactly 0, whatever the store gave as the
    size; and no counters make the scaling raise [ZeroDivisionError]. *)
Theorem sampler_zero_keys {W} (conn : Conn W) self db w size_ keys w1 triples w2 c :
  sample_keys conn self db w = (Ok (size_, keys), w1) ->
  sample_details conn keys w1 = (Ok triples, w2) ->
  accumulate counters0 triples = Ok c ->
  total_keys c = 0 ->
  _get_db_summary conn self db w
  = (Ok {| size := size_;
           total_memory_estimate := 0;
           volatile_memory_estimate := 0;
           persistent_memory_estimate := 0 |}, w2)
  /\ forall any_size any_counters,
       summarise any_size any_counters <> Raise ZeroDivisionError.
Proof.
  intros Hk Hd Ha Hz. split.
  - rewrite (get_db_summary_run conn self db w _ keys w1 triples w2 c Hk Hd Ha).
    destruct (accumulate_counts _ _ _ Ha) as (Hn & Hp & Hv). cbn in Hn, Hp, Hv.
    assert (triples = []) as -> by (destruct triples; [reflexivity|cbn in Hn; lia]).
    cbn in Hp, Hv.
    assert (persistent_keys c = 0) as Hp0 by lia.
    assert (volatile_keys c = 0) as Hv0 by lia.
    unfold summarise. rewrite Hz, Hp0, Hv0, !scale_zero. reflexivity.
  - intros sz cs. unfold summarise.
    pose proof (scale_no_division_error (total_memory cs) (total_keys cs) sz) as H1.
    pose proof (scale_no_division_error (persistent_memory cs) (persistent_keys cs) sz) as H2.
    pose proof (scale_no_division_error (volatile_memory cs) (volatile_keys cs) sz) as H3.
    destruct (scale (total_memory cs) _ sz) as [q1|e1]; cbn; [|congruence].
    destruct (scale (persistent_memory cs) _ sz) as [q2|e2]; cbn; [|congruence].
    destruct (scale (volatile_memory cs) _ sz) as [q3|e3]; cbn; [discriminate|congruence].
Qed.

Lemma sampler_zero_keys_witness :
  _get_db_summary two_keys_conn server_without_draws (VStr "0") tt
  = (Ok {| size := VInt 2;
           total_memory_estimate := 0;
           volatile_memory_estimate := 0;
           persistent_memory_estimate := 0 |}, tt).
Proof.
  apply (sampler_zero_keys two_keys_conn server_without_draws (VStr "0") tt
           (VInt 2) [] tt [] tt counters0); reflexivity.
Defined.



(** On an empty database every draw is [None]: the one key of the second
    batch is [None], and whatever a client that answers every command of
    a batch gives back, the function raises; the guarded scaling is not
    reached. *)
Lemma py_set_all_None (n : nat) : py_set (repeat VNone (S n)) = Ok [VNone].
Proof.
  induction n as [|n IH]; [reflexivity|].
  change (repeat VNone (S (S n))) with (VNone :: repeat VNone (S n)).
  cbn [py_set hashable]. rewrite IH. reflexivity.
Qed.

Lemma sampler_empty_database_raises {W} (conn : Conn W) self db w n ok w0 size_ w1 :
  sampling_threshold self = S n ->
  select conn db w = (Ok ok, w0) ->
  execute conn (DBSIZE :: repeat RANDOMKEY (S n)) w0
  = (Ok (size_ :: repeat VNone (S n)), w1) ->
  (forall batch u replies u',
      execute conn batch u = (Ok replies, u') ->
      List.length replies = List.length batch) ->
  exists e w2, _get_db_summary conn self db w = (Raise e, w2).
Proof.
  intros Hth Hsel Hex Hlen.
  assert (Hkeys : sample_keys conn self db w = (Ok (size_, [VNone]), w1)).
  { unfold sample_keys. rewrite (bind_ok _ _ _ _ _ Hsel), Hth.
    rewrite (bind_ok _ _ _ _ _ Hex).
    unfold bind, lift, ret. now rewrite py_set_all_None. }
  unfold _get_db_summary. rewrite (bind_ok _ _ _ _ _ Hkeys). cbn [fst snd].
  unfold sample_details, bind, ret, lift. cbn [flat_map app].
  destruct (execute conn [DEBUG_OBJECT VNone; TTL VNone] w1)
    as [[replies|e] w2] eqn:Hd; [|eauto].
  apply Hlen in Hd. destruct replies as [|d [|t [|x rest]]]; try discriminate Hd.
  cbn. unfold key_length.
  destruct (parse_details d) as [dd|e]; cbn; [|eauto].
  destruct (dict_item dd (KBytes "serializedlength")) as [sl|e]; cbn; eauto.
Qed.

(** ** Examples of the helpers *)

Example safeint_digits : safeint "1234" = VInt 1234.
Proof. reflexivity. Qed.

Example safeint_underscore : safeint "1_000" = VInt 1000.
Proof. reflexivity. Qed.

Example safeint_address : safeint "0x7f3a" = VBytes "0x7f3a".
Proof. reflexivity. Qed.

Example safeint_empty : safeint "" = VBytes "".
Proof. reflexivity. Qed.

Example split_ws_example :
  split_ws "Value at:0x7f refcount:1  serializedlength:4 " =
  ["Value"; "at:0x7f"; "refcount:1"; "serializedlength:4"].
Proof. reflexivity. Qed.

Example fixup_pair_three_pieces : _fixup_pair (split_on colon "a:b:c") = Raise ValueError.
Proof. reflexivity. Qed.

Example parse_details_example :
  parse_details (VBytes debug_a)
  = Ok [ (KBytes "at", VBytes "0x7f3a5c"); (KBytes "refcount", VInt 1);
         (KBytes "encoding", VBytes "embstr"); (KBytes "serializedlength", VInt 2);
         (KBytes "lru", VInt 8109); (KBytes "lru_seconds_idle", VInt 4) ].
Proof. reflexivity. Qed.

Example decode_ascii : _decode_bytes (VBytes "zset") = VStr "zset".
Proof. reflexivity. Qed.

Example decode_invalid :
  let raw := String (ascii_of_nat 255) "x" in
  _decode_bytes (VBytes raw) = VBytes raw.
Proof. reflexivity. Qed.

Example key_info_existing :
  let reply := fun (_ : nat) (c : command) =>
                 match c with
                 | OBJECT "ENCODING" _ => VBytes "embstr"
                 | OBJECT _ _ => VInt 1
                 | STRLEN _ => VInt 5
                 | TTL _ => VInt (-1)
                 | _ => VNone
                 end in
  fst (_get_key_info (frozen_conn "string" [] [] [] [] reply) (VStr "session") tt)
  = Ok [ (KStr "type", VStr "string"); (KStr "name", VStr "session");
         (KStr "length", VInt 5); (KStr "ttl", VInt (-1));
         (KStr "refcount", VInt 1); (KStr "encoding", VStr "embstr");
         (KStr "idletime", VInt 1) ].
Proof. reflexivity. Qed.

Example key_info_unknown_type :
  fst (_get_key_info (frozen_conn "stream" [] [] [] [] (fun _ _ => VNone))
         (VStr "events") tt)
  = Raise (KeyError (KBytes "stream")).
Proof. reflexivity. Qed.

Example stats_up :
  let conn := frozen_conn "none"
                [ (KStr "redis_version", VStr "6.2.6");
                  (KStr "uptime_in_seconds", VInt 90);
                  (KStr "used_memory_human", VStr "1.5M");
                  (KStr "connected_clients", VInt 3);
                  (KStr "db0", VStr "keys=2,expires=1") ]
                [] [] [] (fun _ _ => VNone) in
  fst (stats_compute plain_format plain_args conn tt)
  = [ (KStr "status", Raw (VStr "UP"));
      (KStr "details",
        Raw (VDict [ (KStr "redis_version", VStr "6.2.6");
                     (KStr "uptime_in_seconds", VInt 90);
                     (KStr "used_memory_human", VStr "1.5M");
                     (KStr "connected_clients", VInt 3);
                     (KStr "db0", VStr "keys=2,expires=1") ]));
      (KStr "memory", Raw (VStr "1.5M (peak: n/a)"));
      (KStr "clients", Raw (VInt 3));
      (KStr "brief_details",
        Mapping [ (KStr "uptime_in_seconds", Timedelta 90);
                  (KStr "redis_version", Raw (VStr "6.2.6")) ]);
      (KStr "db", Mapping [ (KStr "0", Raw (VStr "keys=2,expires=1")) ]);
      (KStr "slowlog", Raw (VList []));
      (KStr "slowlog_len", Raw (VInt 0)) ].
Proof. reflexivity. Qed.

(** * Further properties of the code *)

(** ** The key inspector, beyond store errors *)

Lemma length_getter_unsupported (obj_type : string) :
  ~ In obj_type supported_types ->
  dict_get LENGTH_GETTERS (KBytes obj_type) = None.
Proof.
  intros H. cbv [LENGTH_GETTERS dict_get pykey_eqb].
  repeat match goal with
  | |- context [String.eqb ?a obj_type] =>
      destruct (String.eqb_spec a obj_type) as [E|_];
      [exfalso; apply H; rewrite <- E; unfold supported_types, In; tauto|]
  end.
  reflexivity.
Qed.

(** X1. A key whose type is none of the five supported ones (a missing key,
    of type [none], or a stream) is not inspected: the lookup of its
    length query raises [KeyError] with the type, before any batch goes to
    the store. *)
Theorem get_key_info_unsupported_type {W} (conn : Conn W) key w obj_type w1 :
  type_of conn key w = (Ok obj_type, w1) ->
  ~ In obj_type supported_types ->
  _get_key_info conn key w = (Raise (KeyError (KBytes obj_type)), w1).
Proof.
  intros Htype Hnot.
  apply get_key_info_unknown_type; [exact Htype|].
  now apply length_getter_unsupported.
Qed.

Lemma get_key_info_unsupported_type_witness :
  _get_key_info (frozen_conn "none" [] [] [] [] inspector_reply) (VStr "ghost") tt
  = (Raise (KeyError (KBytes "none")), tt).
Proof.
  apply get_key_info_unsupported_type; [reflexivity|].
  cbn. intros [H|[H|[H|[H|[H|[]]]]]]; discriminate H.
Defined.

(** X2. Only a command error of the store is absorbed.  Any other
    exception of the batch, a lost connection for one, leaves
    [_get_key_info] as it came; and a batch answered with other than five
    replies raises [ValueError]. *)
Theorem get_key_info_other_errors_propagate {W} (conn : Conn W) key w obj_type
    w1 query :
  type_of conn key w = (Ok obj_type, w1) ->
  dict_get LENGTH_GETTERS (KBytes obj_type) = Some query ->
  let batch := [ OBJECT "REFCOUNT" key; OBJECT "ENCODING" key;
                 OBJECT "IDLETIME" key; query key; TTL key ] in
  (forall e w2,
      execute conn batch w1 = (Raise e, w2) ->
      (forall msg, e <> ResponseError msg) ->
      _get_key_info conn key w = (Raise e, w2))
  /\ (forall replies w2,
      execute conn batch w1 = (Ok replies, w2) ->
      List.length replies <> 5%nat ->
      _get_key_info conn key w = (Raise ValueError, w2)).
Proof.
  intros Htype Hq batch. subst batch. split.
  - intros e w2 Hex Hne.
    rewrite (get_key_info_cases conn key w obj_type w1 query Htype Hq), Hex.
    destruct e; try reflexivity. now elim (Hne msg).
  - intros replies w2 Hex Hlen.
    rewrite (get_key_info_cases conn key w obj_type w1 query Htype Hq), Hex.
    destruct replies as [|r1 [|r2 [|r3 [|r4 [|r5 [|r6 rest]]]]]];
      try reflexivity.
    now elim Hlen.
Qed.

Lemma get_key_info_other_errors_propagate_witness :
  _get_key_info dropping_conn (VStr "user:1") tt
  = (Raise (ConnectionError "Connection refused"), tt).
Proof.
  destruct (get_key_info_other_errors_propagate dropping_conn (VStr "user:1") tt
              "hash" tt HLEN eq_refl eq_refl) as [H _].
  apply H; [reflexivity|]. intros msg. discriminate.
Defined.

(** Whatever [_get_key_info] returns carries the key under [name] and
    text or bytes under [type]. *)
Lemma get_key_info_name_type {W} (conn : Conn W) key w info w' :
  _get_key_info conn key w = (Ok info, w') ->
  dict_get info (KStr "name") = Some key
  /\ exists t, (dict_get info (KStr "type") = Some (VStr t)
                \/ dict_get info (KStr "type") = Some (VBytes t)).
Proof.
  destruct (type_of conn key w) as [[obj_type|e] w1] eqn:Htype.
  - destruct (dict_get LENGTH_GETTERS (KBytes obj_type)) as [query|] eqn:Hq.
    + rewrite (get_key_info_cases conn key w obj_type w1 query Htype Hq).
      destruct (execute conn _ w1) as [[replies|e] w2].
      * destruct replies as [|r1 [|r2 [|r3 [|r4 [|r5 [|r6 rest]]]]]];
          try discriminate.
        intros [=<- <-]. split; [reflexivity|].
        exists obj_type. cbn. destruct (utf8_valid (codes obj_type)); auto.
      * destruct e; try discriminate.
        intros [=<- <-]. split; [reflexivity|]. exists obj_type. now right.
    + rewrite (get_key_info_unknown_type conn key w obj_type w1 Htype Hq).
      discriminate.
  - unfold _get_key_info. rewrite (bind_raise _ _ _ _ _ Htype). discriminate.
Qed.

(** ** Key details *)

Lemma value_getter_for_bytes {W} (b : string) :
  @value_getter_for W (VBytes b) = Raise (KeyError (KBytes b)).
Proof. reflexivity. Qed.

(** X3. A key whose batch the store refuses never gets its details: the
    degraded information keeps the type as raw bytes, and [VALUE_GETTERS],
    keyed by text, has no entry for bytes, so [_get_key_details] raises
    [KeyError] with that type instead of returning the [n/a] fields. *)
Theorem get_key_details_after_store_error {W} (conn : Conn W) db key w ok w0
    obj_type w1 query msg w2 :
  select conn db w = (Ok ok, w0) ->
  type_of conn key w0 = (Ok obj_type, w1) ->
  dict_get LENGTH_GETTERS (KBytes obj_type) = Some query ->
  execute conn [ OBJECT "REFCOUNT" key; OBJECT "ENCODING" key;
                 OBJECT "IDLETIME" key; query key; TTL key ] w1
  = (Raise (ResponseError msg), w2) ->
  _get_key_details conn db key w = (Raise (KeyError (KBytes obj_type)), w2).
Proof.
  intros Hsel Htype Hq Hex.
  unfold _get_key_details. rewrite (bind_ok _ _ _ _ _ Hsel).
  pose proof (get_key_info_cases conn key w0 obj_type w1 query Htype Hq) as Hinfo.
  rewrite Hex in Hinfo.
  rewrite (bind_ok _ _ _ _ _ Hinfo).
  reflexivity.
Qed.

Lemma get_key_details_after_store_error_witness :
  _get_key_details vanishing_conn (VStr "0") (VStr "session") true
  = (Raise (KeyError (KBytes "string")), false).
Proof.
  apply (get_key_details_after_store_error vanishing_conn (VStr "0")
           (VStr "session") true (VBytes "OK") true "string" false STRLEN
           "ERR no such key" false); reflexivity.
Defined.

(** X4. For a list or a sorted set the contents are not fetched: the
    details are the key's information with [db] attached and [data] set
    to [None], and the store sees nothing after the batch. *)
Theorem get_key_details_list_zset {W} (conn : Conn W) db key w ok w0 obj_type w1
    query refcount encoding idletime obj_length obj_ttl w2 :
  select conn db w = (Ok ok, w0) ->
  type_of conn key w0 = (Ok obj_type, w1) ->
  obj_type = "list" \/ obj_type = "zset" ->
  dict_get LENGTH_GETTERS (KBytes obj_type) = Some query ->
  execute conn [ OBJECT "REFCOUNT" key; OBJECT "ENCODING" key;
                 OBJECT "IDLETIME" key; query key; TTL key ] w1
  = (Ok [refcount; encoding; idletime; obj_length; obj_ttl], w2) ->
  exists details,
    _get_key_details conn db key w = (Ok details, w2)
    /\ dict_get details (KStr "data") = Some VNone
    /\ dict_get details (KStr "db") = Some db
    /\ dict_get details (KStr "type") = Some (VStr obj_type)
    /\ dict_get details (KStr "name") = Some key
    /\ dict_get details (KStr "length") = Some obj_length
    /\ dict_get details (KStr "ttl") = Some obj_ttl.
Proof.
  intros Hsel Htype Hty Hq Hex.
  unfold _get_key_details. rewrite (bind_ok _ _ _ _ _ Hsel).
  pose proof (get_key_info_cases conn key w0 obj_type w1 query Htype Hq) as Hinfo.
  rewrite Hex in Hinfo.
  rewrite (bind_ok _ _ _ _ _ Hinfo).
  destruct Hty as [-> | ->]; eexists; (split; [reflexivity|]);
    cbn; repeat split; reflexivity.
Qed.

Lemma get_key_details_list_zset_witness :
  exists details,
    _get_key_details (frozen_conn "zset" [] [] [VBytes "x"] [] inspector_reply)
      (VStr "0") (VStr "board") tt = (Ok details, tt)
    /\ dict_get details (KStr "data") = Some VNone
    /\ dict_get details (KStr "length") = Some (VInt 5).
Proof.
  destruct (get_key_details_list_zset
              (frozen_conn "zset" [] [] [VBytes "x"] [] inspector_reply)
              (VStr "0") (VStr "board") tt (VBytes "OK") tt "zset" tt
              (fun key => ZCOUNT key "-inf" "+inf")
              (VInt 1) (VBytes "embstr") (VInt 1) (VInt 5) (VInt (-1)) tt)
    as (details & Hrun & Hdata & _ & _ & _ & Hlen & _);
    try reflexivity.
  - now right.
  - exists details. repeat split; assumption.
Defined.

(** X5. For a string, a set or a hash the contents are fetched with the
    getter of the type and the default bounds, after the batch: when the
    fetch returns, the details carry its pairs under [data], next to [db]
    and the key's information; when it raises, so does
    [_get_key_details]. *)
Theorem get_key_details_contents {W} (conn : Conn W) db key w ok w0 obj_type w1
    query refcount encoding idletime obj_length obj_ttl w2 :
  select conn db w = (Ok ok, w0) ->
  type_of conn key w0 = (Ok obj_type, w1) ->
  In obj_type ["string"; "set"; "hash"] ->
  dict_get LENGTH_GETTERS (KBytes obj_type) = Some query ->
  execute conn [ OBJECT "REFCOUNT" key; OBJECT "ENCODING" key;
                 OBJECT "IDLETIME" key; query key; TTL key ] w1
  = (Ok [refcount; encoding; idletime; obj_length; obj_ttl], w2) ->
  exists getter : value_getter,
    dict_get VALUE_GETTERS (KStr obj_type) = Some getter
    /\ match getter conn key start_default end_default w2 with
       | (Ok data, w3) =>
           exists details,
             _get_key_details conn db key w = (Ok details, w3)
             /\ dict_get details (KStr "data") = Some (pairs_value data)
             /\ dict_get details (KStr "db") = Some db
             /\ dict_get details (KStr "name") = Some key
             /\ dict_get details (KStr "length") = Some obj_length
       | (Raise e, w3) => _get_key_details conn db key w = (Raise e, w3)
       end.
Proof.
  intros Hsel Htype Hty Hq Hex.
  pose proof (get_key_info_cases conn key w0 obj_type w1 query Htype Hq) as Hinfo.
  rewrite Hex in Hinfo.
  unfold _get_key_details. rewrite (bind_ok _ _ _ _ _ Hsel).
  rewrite (bind_ok _ _ _ _ _ Hinfo). clear Hinfo.
  destruct Hty as [<-|[<-|[<-|[]]]]; eexists; (split; [reflexivity|]).
  - change (bind (lift (dict_item _ (KStr "type"))) _ w2)
      with (bind (get_string conn key start_default end_default)
              (fun data => ret (dict_set
                 (dict_set [ (KStr "type", VStr "string"); (KStr "name", key);
                             (KStr "length", obj_length); (KStr "ttl", obj_ttl);
                             (KStr "refcount", refcount);
                             (KStr "encoding", _decode_bytes encoding);
                             (KStr "idletime", idletime) ] (KStr "db") db)
                 (KStr "data") (pairs_value data))) w2).
    unfold bind.
    destruct (get_string conn key start_default end_default w2) as [[data|e] w3];
      [|reflexivity].
    eexists. split; [reflexivity|]. repeat split.
  - change (bind (lift (dict_item _ (KStr "type"))) _ w2)
      with (bind (get_set conn key start_default end_default)
              (fun data => ret (dict_set
                 (dict_set [ (KStr "type", VStr "set"); (KStr "name", key);
                             (KStr "length", obj_length); (KStr "ttl", obj_ttl);
                             (KStr "refcount", refcount);
                             (KStr "encoding", _decode_bytes encoding);
                             (KStr "idletime", idletime) ] (KStr "db") db)
                 (KStr "data") (pairs_value data))) w2).
    unfold bind.
    destruct (get_set conn key start_default end_default w2) as [[data|e] w3];
      [|reflexivity].
    eexists. split; [reflexivity|]. repeat split.
  - change (bind (lift (dict_item _ (KStr "type"))) _ w2)
      with (bind (get_hash conn key start_default end_default)
              (fun data => ret (dict_set
                 (dict_set [ (KStr "type", VStr "hash"); (KStr "name", key);
                             (KStr "length", obj_length); (KStr "ttl", obj_ttl);
                             (KStr "refcount", refcount);
                             (KStr "encoding", _decode_bytes encoding);
                             (KStr "idletime", idletime) ] (KStr "db") db)
                 (KStr "data") (pairs_value data))) w2).
    unfold bind.
    destruct (get_hash conn key start_default end_default w2) as [[data|e] w3];
      [|reflexivity].
    eexists. split; [reflexivity|]. repeat split.
Qed.

Lemma get_key_details_contents_witness :
  exists details,
    _get_key_details (frozen_conn "string" [] [] [VBytes "hello"] [] inspector_reply)
      (VStr "0") (VStr "greeting") tt = (Ok details, tt)
    /\ dict_get details (KStr "data")
       = Some (VList [VList [VStr "string"; VStr "hello"]]).
Proof.
  destruct (get_key_details_contents
              (frozen_conn "string" [] [] [VBytes "hello"] [] inspector_reply)
              (VStr "0") (VStr "greeting") tt (VBytes "OK") tt "string" tt
              STRLEN (VInt 1) (VBytes "embstr") (VInt 1) (VInt 5) (VInt (-1)) tt)
    as (getter & Hg & Hrun); try reflexivity.
  - cbn. tauto.
  - cbn in Hg. injection Hg as <-. cbn in Hrun.
    destruct Hrun as (details & Hrun & Hdata & _).
    exists details. split; assumption.
Defined.

(** ** The database enumerator *)

Lemma pykey_eqb_eq (a b : pykey) : pykey_eqb a b = true <-> a = b.
Proof.
  destruct a, b; cbn; split; intros H; try discriminate;
    try (apply String.eqb_eq in H; now subst);
    try (injection H as ->; apply String.eqb_refl).
Qed.

Lemma pykey_eqb_refl (a : pykey) : pykey_eqb a a = true.
Proof. now apply pykey_eqb_eq. Qed.

(** Looking a key up after an assignment. *)
Lemma dict_get_set {V} (d : dict V) (k k' : pykey) (v : V) :
  dict_get (dict_set d k v) k'
  = if pykey_eqb k k' then Some v else dict_get d k'.
Proof.
  induction d as [|[k0 v0] d IH]; cbn [dict_get dict_set]; [reflexivity|].
  destruct (pykey_eqb k0 k) eqn:E0.
  - apply pykey_eqb_eq in E0. subst k0. cbn [dict_get].
    now destruct (pykey_eqb k k').
  - cbn [dict_get]. rewrite IH.
    destruct (pykey_eqb k0 k') eqn:E1; [|reflexivity].
    apply pykey_eqb_eq in E1. subst k'.
    destruct (pykey_eqb k k0) eqn:E2; [|reflexivity].
    apply pykey_eqb_eq in E2. subst k0.
    rewrite pykey_eqb_refl in E0. discriminate E0.
Qed.

Lemma key_details_loop_step {W} (conn : Conn W) b rest acc w :
  key_details_loop conn (b :: rest) acc w
  = if decodable b
    then match _get_key_info conn (VStr b) w with
         | (Ok info, w1) =>
             key_details_loop conn rest (dict_set acc (KStr b) info) w1
         | (Raise e, w1) => (Raise e, w1)
         end
    else (Raise ValueError, w).
Proof.
  cbn [key_details_loop]. unfold bind, lift, bytes_decode, decodable.
  destruct (utf8_valid (codes b)); reflexivity.
Qed.

Lemma key_details_loop_returns {W} (conn : Conn W) scanned :
  forall acc w d w',
    key_details_loop conn scanned acc w = (Ok d, w') ->
    filed_by_name acc ->
    forallb decodable scanned = true
    /\ filed_by_name d
    /\ forall k, dict_get d k <> None <->
                 (dict_get acc k <> None \/ exists b, In b scanned /\ k = KStr b).
Proof.
  induction scanned as [|b rest IH]; intros acc w d w' Hrun Hacc.
  - cbn in Hrun. injection Hrun as <- <-.
    repeat split; [exact Hacc|tauto|].
    intros [H|(b & [] & _)]. exact H.
  - rewrite key_details_loop_step in Hrun.
    destruct (decodable b) eqn:Hb; [|discriminate Hrun].
    destruct (_get_key_info conn (VStr b) w) as [[info|e] w1] eqn:Hinfo;
      [|discriminate Hrun].
    apply IH in Hrun.
    + destruct Hrun as (Hall & Hfiled & Hdom).
      split; [cbn; now rewrite Hb|]. split; [exact Hfiled|].
      intros k. rewrite Hdom, dict_get_set.
      destruct (pykey_eqb (KStr b) k) eqn:E.
      * apply pykey_eqb_eq in E. subst k.
        split; intros _.
        -- right. exists b. split; [now left|reflexivity].
        -- left. discriminate.
      * split.
        -- intros [H|(b' & Hin & ->)]; [now left|].
           right. exists b'. cbn. tauto.
        -- intros [H|(b' & [<-|Hin] & ->)]; [now left| |].
           ++ now rewrite pykey_eqb_refl in E.
           ++ right. exists b'. tauto.
    + intros k info' Hk. rewrite dict_get_set in Hk.
      destruct (pykey_eqb (KStr b) k) eqn:E; [|now apply Hacc].
      apply pykey_eqb_eq in E. subst k. injection Hk as <-.
      now destruct (get_key_info_name_type conn (VStr b) w info w1 Hinfo).
Qed.


(** X6. When [_get_db_details] returns a page, its cursor is the one the
    store gave, every scanned key name was valid UTF-8, the page has an
    entry for each scanned key and for nothing else, and every entry is
    filed under the name it carries. *)
Theorem get_db_details_page {W} (sconn : ScanConn W) db cursor count w ok w0
    next scanned w1 page w2 :
  select (connection sconn) db w = (Ok ok, w0) ->
  scan sconn cursor count w0 = (Ok (next, scanned), w1) ->
  _get_db_details sconn db cursor count w = (Ok page, w2) ->
  page_cursor page = next
  /\ forallb decodable scanned = true
  /\ (forall k, dict_get (page_keys page) k <> None <->
                exists b, In b scanned /\ k = KStr b)
  /\ filed_by_name (page_keys page).
Proof.
  intros Hsel Hscan Hrun.
  unfold _get_db_details in Hrun.
  rewrite (bind_ok _ _ _ _ _ Hsel), (bind_ok _ _ _ _ _ Hscan) in Hrun.
  cbn [fst snd] in Hrun. unfold bind, ret in Hrun.
  destruct (key_details_loop (connection sconn) scanned [] w1)
    as [[d|e] w3] eqn:Hloop; [|discriminate Hrun].
  injection Hrun as <- <-.
  apply key_details_loop_returns in Hloop.
  - destruct Hloop as (Hall & Hfiled & Hdom). cbn.
    repeat split; try assumption.
    + intros H. apply Hdom in H. destruct H as [H|H]; [now elim H|exact H].
    + intros H. apply Hdom. now right.
  - intros k info H. discriminate H.
Qed.

Lemma get_db_details_page_witness :
  exists page,
    _get_db_details (page_conn "string" ["a"; "b"; "a"]) (VStr "0") 0 50 tt
    = (Ok page, tt)
    /\ page_cursor page = VInt 17
    /\ map fst (page_keys page) = [KStr "a"; KStr "b"].
Proof.
  eexists. split; [reflexivity|].
  destruct (get_db_details_page (page_conn "string" ["a"; "b"; "a"]) (VStr "0")
              0 50 tt (VBytes "OK") tt (VInt 17) ["a"; "b"; "a"] tt _ tt
              eq_refl eq_refl eq_refl) as (Hc & _).
  split; [exact Hc|reflexivity].
Defined.



(** ** Contents of the type dispatch table *)

Lemma enumerate_from_snd {A} (l : list A) (p : Z) :
  map snd (enumerate_from p l) = l.
Proof.
  revert p. induction l as [|v l IH]; intros p; cbn; [reflexivity|].
  now rewrite IH.
Qed.

(** X8. The content fetches hand the values of the store on unchanged and
    in the order of the reply: for [list], [zset] and [set] the second
    elements of the pairs are the reply itself, for [hash] the pairs are
    the fields and values of the reply, and for [string] the one value is
    the reply after [_decode_bytes]. *)
Theorem value_getters_values {W} (conn : Conn W) (key : pyval) (start end_ : Z) (w : W) :
  (forall l w', lrange conn key start end_ w = (Ok l, w') ->
     exists pairs, get_list conn key start end_ w = (Ok pairs, w')
                   /\ map snd pairs = l)
  /\ (forall l w', zrange conn key start end_ w = (Ok l, w') ->
     exists pairs, get_zset conn key start end_ w = (Ok pairs, w')
                   /\ map snd pairs = l)
  /\ (forall l w', smembers conn key w = (Ok l, w') ->
     exists pairs, get_set conn key start end_ w = (Ok pairs, w')
                   /\ map snd pairs = l)
  /\ (forall d w', hgetall conn key w = (Ok d, w') ->
     exists pairs, get_hash conn key start end_ w = (Ok pairs, w')
                   /\ map snd pairs = map snd d
                   /\ map fst pairs = map (fun kv => val_of_key (fst kv)) d)
  /\ (forall v w', get conn key w = (Ok v, w') ->
     get_string conn key start end_ w
     = (Ok [(VStr "string", _decode_bytes v)], w')).
Proof.
  repeat split.
  - intros l w' H. unfold get_list. rewrite (bind_ok _ _ _ _ _ H).
    eexists. split; [reflexivity|].
    rewrite map_map. cbn. apply enumerate_from_snd.
  - intros l w' H. unfold get_zset. rewrite (bind_ok _ _ _ _ _ H).
    eexists. split; [reflexivity|].
    rewrite map_map. cbn. apply enumerate_from_snd.
  - intros l w' H. unfold get_set. rewrite (bind_ok _ _ _ _ _ H).
    eexists. split; [reflexivity|].
    rewrite map_map. cbn. apply enumerate_from_snd.
  - intros d w' H. unfold get_hash. rewrite (bind_ok _ _ _ _ _ H).
    eexists. split; [reflexivity|]. rewrite !map_map. cbn. split; reflexivity.
  - intros v w' H. unfold get_string. now rewrite (bind_ok _ _ _ _ _ H).
Qed.

Lemma value_getters_values_witness :
  exists pairs,
    get_set (frozen_conn "set" [] [] [VBytes "x"; VBytes "y"] [] inspector_reply)
      (VStr "tags") 0 (-1) tt = (Ok pairs, tt)
    /\ map snd pairs = [VBytes "x"; VBytes "y"].
Proof.
  destruct (value_getters_values
              (frozen_conn "set" [] [] [VBytes "x"; VBytes "y"] [] inspector_reply)
              (VStr "tags") 0 (-1) tt) as (_ & _ & H & _).
  exact (H [VBytes "x"; VBytes "y"] tt eq_refl).
Defined.

(** ** Decoding of byte strings *)

Lemma utf8_valid_ascii (l : list Z) :
  Forall (fun c => c < 128) l -> utf8_valid l = true.
Proof.
  induction 1 as [|c l Hc _ IH]; [reflexivity|].
  cbn [utf8_valid]. apply Z.ltb_lt in Hc. now rewrite Hc.
Qed.

(** X9. A byte string of ASCII bytes only always becomes text. *)
Theorem decode_bytes_ascii (b : string) :
  Forall (fun c => c < 128) (codes b) ->
  _decode_bytes (VBytes b) = VStr b.
Proof.
  intros H. unfold _decode_bytes. now rewrite (utf8_valid_ascii _ H).
Qed.

Lemma decode_bytes_ascii_witness :
  _decode_bytes (VBytes "user:1001") = VStr "user:1001".
Proof.
  apply decode_bytes_ascii. cbn. repeat constructor.
Defined.

(** X10. [_decode_bytes] keeps the bytes: a byte string comes back as the
    same bytes, as text or as it was; anything else comes back as it is;
    and decoding twice is decoding once. *)
Theorem decode_bytes_keeps_bytes (value : pyval) :
  (forall b, value = VBytes b ->
     _decode_bytes value = VStr b \/ _decode_bytes value = VBytes b)
  /\ ((forall b, value <> VBytes b) -> _decode_bytes value = value)
  /\ _decode_bytes (_decode_bytes value) = _decode_bytes value.
Proof.
  repeat split.
  - intros b ->. cbn. destruct (utf8_valid (codes b)); auto.
  - intros H. destruct value; try reflexivity. now elim (H b).
  - destruct value; try reflexivity. cbn.
    destruct (utf8_valid (codes b)) eqn:E; cbn; [reflexivity|now rewrite E].
Qed.

Lemma decode_bytes_keeps_bytes_witness :
  _decode_bytes (VInt 7) = VInt 7
  /\ _decode_bytes (_decode_bytes (VBytes "embstr")) = VStr "embstr".
Proof.
  destruct (decode_bytes_keeps_bytes (VInt 7)) as (_ & H & _).
  split; [apply H; intros b; discriminate|].
  destruct (decode_bytes_keeps_bytes (VBytes "embstr")) as (_ & _ & ->).
  reflexivity.
Defined.

(** ** Integers in byte strings *)









(** ** The text reply to DEBUG OBJECT *)

Lemma append_snoc (a : string) (c : ascii) (b : string) :
  (a ++ String c "") ++ b = a ++ String c b.
Proof. induction a as [|x a IH]; cbn; [reflexivity|now rewrite IH]. Qed.

Lemma append_empty_r (a : string) : a ++ "" = a.
Proof. induction a as [|x a IH]; cbn; [reflexivity|now rewrite IH]. Qed.

Lemma append_nonempty (a b : string) :
  String.eqb b "" = false -> String.eqb (a ++ b) "" = false.
Proof.
  intros H. destruct a; [exact H|reflexivity].
Qed.

Lemma split_on_aux_free (sep : ascii) (v cur : string) :
  no_char (fun c => Ascii.eqb c sep) v = true ->
  split_on_aux sep v cur = [cur ++ v].
Proof.
  revert cur. induction v as [|c v IH]; intros cur H; cbn in *.
  - now rewrite append_empty_r.
  - apply andb_true_iff in H. destruct H as [Hc Hv].
    apply negb_true_iff in Hc. rewrite Hc, IH by assumption.
    now rewrite append_snoc.
Qed.

Lemma split_on_aux_field (sep : ascii) (k v cur : string) :
  no_char (fun c => Ascii.eqb c sep) k = true ->
  split_on_aux sep (k ++ String sep v) cur
  = (cur ++ k) :: split_on_aux sep v "".
Proof.
  revert cur. induction k as [|c k IH]; intros cur H; cbn in *.
  - now rewrite Ascii.eqb_refl, append_empty_r.
  - apply andb_true_iff in H. destruct H as [Hc Hk].
    apply negb_true_iff in Hc. rewrite Hc, IH by assumption.
    now rewrite append_snoc.
Qed.

Lemma split_on_aux_length (sep : ascii) (s cur : string) :
  List.length (split_on_aux sep s cur) = S (count_byte sep s).
Proof.
  revert cur. induction s as [|c s IH]; intros cur; cbn; [reflexivity|].
  destruct (Ascii.eqb c sep); cbn; now rewrite IH.
Qed.

Lemma fixup_pair_colon_free (k v : string) :
  no_char is_colon k = true -> no_char is_colon v = true ->
  _fixup_pair (split_on colon (k ++ String colon v)) = Ok (KBytes k, safeint v).
Proof.
  intros Hk Hv. unfold split_on.
  rewrite (split_on_aux_field colon k v "" Hk).
  rewrite (split_on_aux_free colon v "" Hv). reflexivity.
Qed.

(** X12. A token becomes a pair exactly when it has one colon: [k:v]
    gives the field [k] with [safeint] of [v]; a token with two colons or
    more makes [_fixup_pair] raise [ValueError], which nothing catches. *)
Theorem fixup_pair_one_colon :
  (forall k v,
      no_char is_colon k = true -> no_char is_colon v = true ->
      _fixup_pair (split_on colon (k ++ String colon v))
      = Ok (KBytes k, safeint v))
  /\ (forall i,
      count_byte colon i <> 1%nat ->
      _fixup_pair (split_on colon i) = Raise ValueError).
Proof.
  split.
  - intros k v Hk Hv. now apply fixup_pair_colon_free.
  - intros i H. unfold split_on.
    pose proof (split_on_aux_length colon i "") as Hlen.
    destruct (split_on_aux colon i "") as [|a [|b [|c rest]]]; try reflexivity.
    cbn in Hlen. injection Hlen as Hlen. now elim H.
Qed.

Lemma fixup_pair_one_colon_witness :
  _fixup_pair (split_on colon "serializedlength:17")
  = Ok (KBytes "serializedlength", VInt 17)
  /\ _fixup_pair (split_on colon "at:0x7f:3a") = Raise ValueError.
Proof.
  destruct fixup_pair_one_colon as [H1 H2]. split.
  - apply (H1 "serializedlength" "17"); reflexivity.
  - apply H2. cbn. discriminate.
Defined.

Lemma split_ws_aux_word (t s cur : string) :
  no_char is_space t = true ->
  split_ws_aux (t ++ s) cur = split_ws_aux s (cur ++ t).
Proof.
  revert cur. induction t as [|c t IH]; intros cur H; cbn in *.
  - now rewrite append_empty_r.
  - apply andb_true_iff in H. destruct H as [Hc Ht].
    apply negb_true_iff in Hc. rewrite Hc, IH by assumption.
    now rewrite append_snoc.
Qed.

(** Splitting on white space undoes joining with single spaces. *)
Lemma split_ws_joined (tokens : list string) :
  forallb plain_word tokens = true ->
  split_ws (String.concat " " tokens) = tokens.
Proof.
  unfold split_ws.
  induction tokens as [|t tokens IH]; intros H; [reflexivity|].
  cbn [forallb] in H. apply andb_true_iff in H. destruct H as [Ht Hts].
  unfold plain_word in Ht. apply andb_true_iff in Ht. destruct Ht as [Hne Hsp].
  apply negb_true_iff in Hne.
  destruct tokens as [|t' tokens].
  - cbn [String.concat]. rewrite <- (append_empty_r t) at 1.
    rewrite (split_ws_aux_word t "" "" Hsp). cbn. now rewrite Hne.
  - change (String.concat " " (t :: t' :: tokens))
      with (t ++ String " "%char (String.concat " " (t' :: tokens))).
    rewrite (split_ws_aux_word t _ "" Hsp).
    cbn [split_ws_aux append]. change (is_space " ") with true. cbn iota.
    rewrite Hne. f_equal. now apply IH.
Qed.

Lemma no_char_app (p : ascii -> bool) (a b : string) :
  no_char p (a ++ b) = no_char p a && no_char p b.
Proof.
  induction a as [|c a IH]; cbn; [reflexivity|].
  now rewrite IH, andb_assoc.
Qed.

Lemma contains_no_colon (w : string) :
  no_char is_colon w = true -> contains_byte colon w = false.
Proof.
  induction w as [|c w IH]; cbn; [reflexivity|].
  intros H. apply andb_true_iff in H. destruct H as [Hc Hw].
  apply negb_true_iff in Hc. unfold is_colon in Hc. now rewrite Hc, IH.
Qed.

Lemma contains_colon_field (k v : string) :
  contains_byte colon (k ++ String colon v) = true.
Proof.
  induction k as [|c k IH]; cbn.
  - reflexivity.
  - rewrite IH. apply orb_true_r.
Qed.

Lemma token_text_plain (t : token) :
  token_ok t = true -> plain_word (token_text t) = true.
Proof.
  destruct t as [w|k v]; cbn.
  - intros H. now apply andb_true_iff in H.
  - intros H. repeat (apply andb_true_iff in H; destruct H as [H ?]).
    unfold plain_word. apply andb_true_iff. split.
    + apply negb_true_iff. apply append_nonempty. reflexivity.
    + rewrite no_char_app. cbn. apply andb_true_iff. split; assumption.
Qed.

Lemma tokens_traverse (ts : list token) :
  forallb token_ok ts = true ->
  traverse (fun i => _fixup_pair (split_on colon i))
    (filter (contains_byte colon) (map token_text ts))
  = Ok (token_pairs ts).
Proof.
  induction ts as [|t ts IH]; intros H; [reflexivity|].
  cbn [forallb] in H. apply andb_true_iff in H. destruct H as [Ht Hts].
  specialize (IH Hts). cbn [map filter token_pairs flat_map].
  destruct t as [w|k v]; cbn [token_text token_ok] in *.
  - apply andb_true_iff in Ht. destruct Ht as [_ Hc].
    rewrite (contains_no_colon w Hc). exact IH.
  - rewrite contains_colon_field. cbn [traverse].
    repeat (apply andb_true_iff in Ht; destruct Ht as [Ht ?]).
    rewrite (fixup_pair_colon_free k v) by assumption.
    cbn [rbind]. fold (token_pairs ts). now rewrite IH.
Qed.

(** X13. The raw-text fallback reads a well-formed reply in full: for a
    reply made of bare words and [field:value] tokens joined by spaces,
    [parse_details] returns the dict of the fields, each value through
    [safeint], a later field replacing an earlier one of the same name;
    the bare words are dropped. *)
Theorem parse_details_tokens (ts : list token) :
  forallb token_ok ts = true ->
  parse_details (VBytes (String.concat " " (map token_text ts)))
  = Ok (dict_of_pairs (token_pairs ts)).
Proof.
  intros H. cbn [parse_details].
  rewrite split_ws_joined.
  - now rewrite (tokens_traverse ts H).
  - rewrite forallb_forall in *. intros x Hx.
    apply in_map_iff in Hx. destruct Hx as (t & <- & Ht).
    apply token_text_plain. now apply H.
Qed.

Lemma parse_details_tokens_witness :
  parse_details (VBytes "Value at:0x7f3a refcount:1 serializedlength:17")
  = Ok [ (KBytes "at", VBytes "0x7f3a"); (KBytes "refcount", VInt 1);
         (KBytes "serializedlength", VInt 17) ].
Proof.
  apply (parse_details_tokens
           [ Word "Value"; Field "at" "0x7f3a"; Field "refcount" "1";
             Field "serializedlength" "17" ]).
  reflexivity.
Defined.

Lemma dict_of_pairs_unset {V} (l : list (pykey * V)) (k : pykey) :
  (forall p, In p l -> pykey_eqb (fst p) k = false) ->
  forall acc,
    dict_get (fold_left (fun d kv => dict_set d (fst kv) (snd kv)) l acc) k
    = dict_get acc k.
Proof.
  induction l as [|[k0 v0] l IH]; intros H acc; [reflexivity|].
  cbn [fold_left fst snd]. rewrite IH.
  - rewrite dict_get_set.
    pose proof (H (k0, v0) (or_introl eq_refl)) as E. cbn [fst] in E.
    now rewrite E.
  - intros p Hp. apply H. now right.
Qed.






(** ** The sampling loop and its batches *)

Lemma accumulate_memory (l : list (pyval * pyval * pyval)) (c c' : counters) :
  accumulate c l = Ok c' ->
  total_memory c' - total_memory c
  = (volatile_memory c' - volatile_memory c)
    + (persistent_memory c' - persistent_memory c).
Proof.
  revert c. induction l as [|t l IH]; intros c H; cbn in H.
  - injection H as <-. lia.
  - destruct (accumulate_step c t) as [c1|e] eqn:Hstep; cbn in H; [|discriminate].
    destruct (accumulate_step_spec _ _ _ Hstep) as (len & _ & Hm & _ & Hb).
    specialize (IH _ H).
    destruct (truthy (ttl_of t)); lia.
Qed.

(** X15. The loop splits the memory as it splits the keys: when it ends,
    [total_memory] is the sum of [volatile_memory] and
    [persistent_memory]. *)
Theorem accumulate_memory_partition (triples : list (pyval * pyval * pyval))
    (c : counters) :
  accumulate counters0 triples = Ok c ->
  total_memory c = volatile_memory c + persistent_memory c.
Proof.
  intros H. pose proof (accumulate_memory _ _ _ H) as E. cbn in E. lia.
Qed.

Lemma accumulate_memory_partition_witness :
  exists c,
    accumulate counters0
      [ (VBytes "a", VBytes debug_a, VNone);
        (VBytes "b", VBytes debug_b, VInt 100) ] = Ok c
    /\ total_memory c = volatile_memory c + persistent_memory c.
Proof.
  eexists. split; [vm_compute; reflexivity|].
  apply (accumulate_memory_partition
           [ (VBytes "a", VBytes debug_a, VNone);
             (VBytes "b", VBytes debug_b, VInt 100) ]).
  vm_compute. reflexivity.
Defined.

Lemma zip3_aligned (keys results : list pyval) :
  List.length results = (2 * List.length keys)%nat ->
  List.length (zip3 keys (evens results) (odds results)) = List.length keys
  /\ forall i key,
       nth_error keys i = Some key ->
       exists d t,
         nth_error results (2 * i) = Some d
         /\ nth_error results (2 * i + 1) = Some t
         /\ nth_error (zip3 keys (evens results) (odds results)) i
            = Some (key, d, t).
Proof.
  revert results. induction keys as [|k keys IH]; intros results Hlen.
  - split; [reflexivity|]. intros [|i] key H; discriminate H.
  - destruct results as [|d [|t results]]; try (cbn in Hlen; lia).
    assert (Hlen' : List.length results = (2 * List.length keys)%nat)
      by (cbn in Hlen; lia).
    destruct (IH results Hlen') as [Hn Hnth].
    assert (Hz : zip3 (k :: keys) (evens (d :: t :: results))
                   (odds (d :: t :: results))
                 = (k, d, t) :: zip3 keys (evens results) (odds results)).
    { unfold odds. cbn [tl evens].
      destruct results as [|d' results']; [destruct keys; reflexivity|].
      reflexivity. }
    rewrite Hz. split; [cbn; now rewrite Hn|].
    intros [|i] key H.
    + injection H as <-. exists d, t. repeat split.
    + cbn in H. destruct (Hnth i key H) as (d' & t' & H1 & H2 & H3).
      exists d', t'.
      replace (2 * S i)%nat with (S (S (2 * i))) by lia.
      replace (S (S (2 * i)) + 1)%nat with (S (S (2 * i + 1))) by lia.
      repeat split; assumption.
Qed.

(** X16. When the second batch is answered with two replies for every
    key, the loop walks every key once, each with its own replies: the
    [i]-th triple is the [i]-th key with the replies at positions [2i]
    (its [DEBUG OBJECT]) and [2i + 1] (its [TTL]). *)
Theorem sample_details_aligned {W} (conn : Conn W) keys w results w' :
  execute conn (flat_map (fun key => [DEBUG_OBJECT key; TTL key]) keys) w
  = (Ok results, w') ->
  List.length results = (2 * List.length keys)%nat ->
  exists triples,
    sample_details conn keys w = (Ok triples, w')
    /\ List.length triples = List.length keys
    /\ forall i key,
         nth_error keys i = Some key ->
         exists d t,
           nth_error results (2 * i) = Some d
           /\ nth_error results (2 * i + 1) = Some t
           /\ nth_error triples i = Some (key, d, t).
Proof.
  intros Hex Hlen. unfold sample_details. rewrite (bind_ok _ _ _ _ _ Hex).
  eexists. split; [reflexivity|]. now apply zip3_aligned.
Qed.

Lemma sample_details_aligned_witness :
  sample_details two_keys_conn [VBytes "a"; VBytes "b"] tt
  = (Ok [ (VBytes "a", VBytes debug_a, VNone);
          (VBytes "b", VBytes debug_b, VInt 100) ], tt).
Proof.
  destruct (sample_details_aligned two_keys_conn [VBytes "a"; VBytes "b"] tt
              [VBytes debug_a; VNone; VBytes debug_b; VInt 100] tt
              eq_refl eq_refl) as (triples & Hrun & _).
  rewrite Hrun. f_equal. vm_compute in Hrun. now injection Hrun as <-.
Defined.

(** ** The sampled keys *)

Lemma py_eqb_true (a b : pyval) : py_eqb a b = true -> a = b.
Proof.
  destruct a, b; cbn; intros H; try discriminate; try reflexivity.
  - apply Z.eqb_eq in H. now subst.
  - apply String.eqb_eq in H. now subst.
  - apply String.eqb_eq in H. now subst.
Qed.

Lemma py_set_In (l s : list pyval) :
  py_set l = Ok s -> forall v, In v s <-> In v l.
Proof.
  revert s. induction l as [|x l IH]; intros s H v; cbn in H.
  - injection H as <-. tauto.
  - destruct (hashable x) eqn:Hx; [|discriminate].
    destruct (py_set l) as [s'|e]; cbn in H; [|discriminate].
    injection H as <-. specialize (IH s' eq_refl).
    destruct (existsb (py_eqb x) s') eqn:Hex.
    + rewrite IH. split; [now right|]. intros [<-|Hv]; [|exact Hv].
      apply existsb_exists in Hex. destruct Hex as (y & Hy & Heq).
      apply py_eqb_true in Heq. subst y. now apply IH.
    + cbn. now rewrite IH.
Qed.

Lemma string_ltb_total (x y : string) :
  String.ltb x y = false -> x <> y -> String.ltb y x = true.
Proof.
  unfold String.ltb. rewrite (String.compare_antisym y x).
  destruct (String.compare x y) eqn:E; cbn; intros H Hne;
    try discriminate; try reflexivity.
  apply String.compare_eq_iff in E. contradiction.
Qed.

(** Two different values that compare, compare one way or the other. *)
Lemma py_lt_total (x y : pyval) :
  py_lt x y = Ok false -> x <> y -> py_before y x.
Proof.
  unfold py_before.
  destruct x, y; cbn; intros H Hne; try discriminate; injection H as H.
  - f_equal. apply Z.ltb_lt. apply Z.ltb_ge in H.
    assert (z <> z0) by congruence. lia.
  - f_equal. apply string_ltb_total; congruence.
  - f_equal. apply string_ltb_total; congruence.
Qed.

Lemma insert_sorted_HdRel (x y : pyval) (l r : list pyval) :
  insert_sorted x l = Ok r ->
  HdRel py_before y l -> py_before y x -> HdRel py_before y r.
Proof.
  destruct l as [|z l]; cbn; intros H Hl Hx.
  - injection H as <-. now constructor.
  - destruct (py_lt x z) as [[|]|e]; cbn in H; try discriminate.
    + injection H as <-. now constructor.
    + destruct (insert_sorted x l) as [r'|e]; cbn in H; [|discriminate].
      injection H as <-. constructor. now inversion Hl.
Qed.

Lemma insert_sorted_Sorted (x : pyval) (l r : list pyval) :
  insert_sorted x l = Ok r ->
  ~ In x l -> Sorted py_before l -> Sorted py_before r.
Proof.
  revert r. induction l as [|y l IH]; intros r H Hnin Hs; cbn in H.
  - injection H as <-. repeat constructor.
  - destruct (py_lt x y) as [[|]|e] eqn:Hlt; cbn in H; try discriminate.
    + injection H as <-. constructor; [exact Hs|]. now constructor.
    + destruct (insert_sorted x l) as [r'|e] eqn:Hins; cbn in H; [|discriminate].
      injection H as <-. inversion Hs as [|? ? Hs' Hhd]; subst.
      constructor.
      * apply IH; [reflexivity| |exact Hs']. intros Hin. apply Hnin. now right.
      * apply (insert_sorted_HdRel x y l r' Hins Hhd).
        apply py_lt_total; [exact Hlt|]. intros ->. apply Hnin. now left.
Qed.

Lemma py_sorted_Sorted (l r : list pyval) :
  py_sorted l = Ok r -> NoDup l -> Sorted py_before r.
Proof.
  revert r. induction l as [|x l IH]; intros r H Hnd; cbn in H.
  - injection H as <-. constructor.
  - destruct (py_sorted l) as [s|e] eqn:Hs; cbn in H; [|discriminate].
    inversion Hnd as [|? ? Hnin Hnd']; subst.
    apply (insert_sorted_Sorted x s r H).
    + intros Hin. apply Hnin.
      eapply Permutation_in; [apply Permutation_sym, py_sorted_perm, Hs|exact Hin].
    + now apply IH.
Qed.

(** X17. The keys of the second batch are the distinct replies of the
    random draws, each once, in ascending order; the size is the first
    reply of the first batch, as it came. *)
Theorem sample_keys_sorted_draws {W} (conn : Conn W) self db w ok w0 size_ draws w1
    size' keys w2 :
  select conn db w = (Ok ok, w0) ->
  execute conn (DBSIZE :: repeat RANDOMKEY (sampling_threshold self)) w0
  = (Ok (size_ :: draws), w1) ->
  sample_keys conn self db w = (Ok (size', keys), w2) ->
  size' = size_
  /\ w2 = w1
  /\ (forall k, In k keys <-> In k draws)
  /\ NoDup keys
  /\ Sorted py_before keys.
Proof.
  intros Hsel Hex Hrun.
  pose proof (sample_keys_NoDup conn self db w size' keys w2 Hrun) as Hnd.
  unfold sample_keys in Hrun.
  rewrite (bind_ok _ _ _ _ _ Hsel), (bind_ok _ _ _ _ _ Hex) in Hrun.
  unfold bind, lift, ret in Hrun.
  destruct (py_set draws) as [distinct|e] eqn:Hset; [|discriminate Hrun].
  destruct (py_sorted distinct) as [sorted|e] eqn:Hsort; [|discriminate Hrun].
  injection Hrun as <- <- <-.
  repeat split; try assumption.
  - intros Hin. apply (py_set_In _ _ Hset).
    eapply Permutation_in; [apply Permutation_sym, py_sorted_perm, Hsort|exact Hin].
  - intros Hin. apply (py_set_In _ _ Hset) in Hin.
    eapply Permutation_in; [apply py_sorted_perm, Hsort|exact Hin].
  - apply (py_sorted_Sorted _ _ Hsort). eapply py_set_NoDup, Hset.
Qed.

Lemma sample_keys_sorted_draws_witness :
  sample_keys two_keys_conn server (VStr "0") tt
  = (Ok (VInt 2, [VBytes "a"; VBytes "b"]), tt)
  /\ Sorted py_before [VBytes "a"; VBytes "b"].
Proof.
  assert (Hrun : sample_keys two_keys_conn server (VStr "0") tt
                 = (Ok (VInt 2, [VBytes "a"; VBytes "b"]), tt))
    by (vm_compute; reflexivity).
  split; [exact Hrun|].
  destruct (sample_keys_sorted_draws two_keys_conn server (VStr "0") tt
              (VBytes "OK") tt (VInt 2)
              (replies_from two_keys_reply 1 (repeat RANDOMKEY 1000)) tt
              (VInt 2) [VBytes "a"; VBytes "b"] tt eq_refl eq_refl Hrun)
    as (_ & _ & _ & _ & Hs).
  exact Hs.
Defined.

(** X18. The sampler absorbs nothing: an exception of the second batch (a
    sampled key that has expired in between makes [DEBUG OBJECT] fail)
    and an exception of the loop (a reply without [serializedlength]) both
    leave [_get_db_summary] as they came. *)
Theorem get_db_summary_propagates {W} (conn : Conn W) self db w size_ keys w1 :
  sample_keys conn self db w = (Ok (size_, keys), w1) ->
  (forall e w2,
      execute conn (flat_map (fun key => [DEBUG_OBJECT key; TTL key]) keys) w1
      = (Raise e, w2) ->
      _get_db_summary conn self db w = (Raise e, w2))
  /\ (forall triples w2 e,
      sample_details conn keys w1 = (Ok triples, w2) ->
      accumulate counters0 triples = Raise e ->
      _get_db_summary conn self db w = (Raise e, w2)).
Proof.
  intros Hk. split.
  - intros e w2 Hex. unfold _get_db_summary.
    rewrite (bind_ok _ _ _ _ _ Hk). cbn [fst snd].
    apply bind_raise. unfold sample_details. now apply bind_raise.
  - intros triples w2 e Hd Ha. unfold _get_db_summary.
    rewrite (bind_ok _ _ _ _ _ Hk). cbn [fst snd].
    rewrite (bind_ok _ _ _ _ _ Hd).
    apply bind_raise. unfold lift. now rewrite Ha.
Qed.

Lemma get_db_summary_propagates_witness :
  _get_db_summary expiring_conn server (VStr "0") tt
  = (Raise (ResponseError "ERR no such key"), tt).
Proof.
  destruct (get_db_summary_propagates expiring_conn server (VStr "0") tt
              (VInt 1) [VBytes "b"] tt) as [H _].
  - vm_compute. reflexivity.
  - apply H. reflexivity.
Defined.

Lemma replies_from_length (reply : nat -> command -> pyval) (batch : list command) :
  forall i, List.length (replies_from reply i batch) = List.length batch.
Proof.
  induction batch as [|c batch IH]; intros i; cbn; [reflexivity|].
  now rewrite IH.
Qed.

(** X19. An empty database is not summarised: with at least one draw,
    every draw answers [None], the one key of the second batch is [None],
    and [_get_db_summary] raises, on any client that answers a batch with
    one reply for each command. *)
Theorem get_db_summary_empty_database {W} (conn : Conn W) self db w n ok w0
    size_ w1 :
  sampling_threshold self = S n ->
  select conn db w = (Ok ok, w0) ->
  execute conn (DBSIZE :: repeat RANDOMKEY (S n)) w0
  = (Ok (size_ :: repeat VNone (S n)), w1) ->
  (forall batch u replies u',
      execute conn batch u = (Ok replies, u') ->
      List.length replies = List.length batch) ->
  exists e w2, _get_db_summary conn self db w = (Raise e, w2).
Proof.
  intros Hth Hsel Hex Hlen.
  assert (Hkeys : sample_keys conn self db w = (Ok (size_, [VNone]), w1)).
  { unfold sample_keys. rewrite (bind_ok _ _ _ _ _ Hsel), Hth.
    rewrite (bind_ok _ _ _ _ _ Hex).
    unfold bind, lift, ret. now rewrite py_set_all_None. }
  unfold _get_db_summary. rewrite (bind_ok _ _ _ _ _ Hkeys). cbn [fst snd].
  unfold sample_details, bind, ret, lift. cbn [flat_map app].
  destruct (execute conn [DEBUG_OBJECT VNone; TTL VNone] w1)
    as [[replies|e] w2] eqn:Hd; [|eauto].
  apply Hlen in Hd. destruct replies as [|d [|t [|x rest]]]; try discriminate Hd.
  cbn. unfold key_length.
  destruct (parse_details d) as [dd|e]; cbn; [|eauto].
  destruct (dict_item dd (KBytes "serializedlength")) as [sl|e]; cbn; eauto.
Qed.

Lemma get_db_summary_empty_database_witness :
  exists e w2, _get_db_summary empty_conn server (VStr "0") tt = (Raise e, w2).
Proof.
  apply (get_db_summary_empty_database empty_conn server (VStr "0") tt 999
           (VBytes "OK") tt (VInt 0) tt).
  - reflexivity.
  - reflexivity.
  - vm_compute. reflexivity.
  - intros batch u replies u' H. cbn in H. injection H as <- _.
    apply replies_from_length.
Defined.

(** ** Range of the estimate *)





(** ** When the statistics are UP *)

Lemma traverse_ok {A B} (f : A -> result B) (l : list A) :
  (forall a, In a l -> exists b, f a = Ok b) ->
  exists bs, traverse f l = Ok bs.
Proof.
  induction l as [|a l IH]; intros H; cbn; [eauto|].
  destruct (H a (or_introl eq_refl)) as [b ->]. cbn.
  destruct IH as [bs ->]; [intros x Hx; apply H; now right|].
  cbn. eauto.
Qed.

Lemma traverse_inv {A B} (f : A -> result B) (l : list A) bs :
  traverse f l = Ok bs -> forall a, In a l -> exists b, f a = Ok b.
Proof.
  revert bs. induction l as [|x l IH]; intros bs H a Ha; [destruct Ha|].
  cbn in H. destruct (f x) as [b|e] eqn:Hx; cbn in H; [|discriminate].
  destruct (traverse f l) as [bs'|e] eqn:Hl; cbn in H; [|discriminate].
  destruct Ha as [<-|Ha]; [eauto|]. eapply IH; eauto.
Qed.

Lemma prettify_showable (kv : pykey * pyval) :
  showable_item kv = true -> exists p, prettify (fst kv) (snd kv) = Ok p.
Proof.
  destruct kv as [[b|s] v]; unfold showable_item; cbn [fst snd];
    [discriminate|].
  unfold prettify, key_in, REDISBOARD_DETAIL_SECONDS_KEYS,
    REDISBOARD_DETAIL_TIMESTAMP_KEYS, existsb, pykey_eqb.
  destruct (String.eqb s "uptime_in_seconds").
  - destruct v; try discriminate. intros H.
    cbn [orb]. unfold timedelta_seconds. rewrite H.
    change (getattr datetime_module "timedelta") with (Ok tt). cbn. eauto.
  - intros H. apply negb_true_iff in H. rewrite H. cbn. eauto.
Qed.

Lemma prettify_uptime (v : pyval) :
  prettify (KStr "uptime_in_seconds") v
  = let? d := timedelta_seconds v in Ok (KStr "uptime_in_seconds", d).
Proof. reflexivity. Qed.

Lemma brief_pairs_showable (info : dict pyval) :
  showable info = true -> exists brief, brief_pairs info = Ok brief.
Proof.
  intros H. unfold showable in H. rewrite forallb_forall in H.
  unfold brief_pairs.
  match goal with |- context [traverse ?f REDISBOARD_DETAIL_FILTERS] =>
    destruct (traverse_ok f REDISBOARD_DETAIL_FILTERS) as [per ->] end.
  - intros name _.
    match goal with |- context [traverse ?g info] =>
      destruct (traverse_ok g info) as [hits ->] end.
    + intros kv Hkv. specialize (H kv Hkv).
      destruct (prettify_showable kv H) as [p Hp].
      destruct kv as [[b|s] v]; [discriminate H|].
      cbn [fst snd re_match rbind] in *.
      destruct (String.prefix name s); [rewrite Hp; cbn|]; eauto.
    + cbn. eauto.
  - cbn. eauto.
Qed.

Lemma db_pairs_showable (info : dict pyval) :
  showable info = true -> exists db, db_pairs info = Ok db.
Proof.
  intros H. unfold showable in H. rewrite forallb_forall in H.
  unfold db_pairs.
  match goal with |- context [traverse ?g info] =>
    destruct (traverse_ok g info) as [hits ->] end.
  - intros kv Hkv. specialize (H kv Hkv).
    destruct kv as [[b|s] v]; [discriminate H|]. cbn. eauto.
  - cbn. eauto.
Qed.

Lemma brief_pairs_needs_showable (info : dict pyval) brief :
  brief_pairs info = Ok brief -> showable info = true.
Proof.
  unfold brief_pairs. intros H.
  match type of H with context [traverse ?f REDISBOARD_DETAIL_FILTERS] =>
    destruct (traverse f REDISBOARD_DETAIL_FILTERS) as [per|e] eqn:Hper;
    [clear H|discriminate H] end.
  unfold showable. apply forallb_forall. intros [[b|s] v] Hkv.
  - destruct (traverse_inv _ _ _ Hper "aof_enabled") as [hits Hhits];
      [cbn; tauto|].
    destruct (traverse _ info) as [hs|e] eqn:Hinner; [|discriminate Hhits].
    destruct (traverse_inv _ _ _ Hinner _ Hkv) as [r Hr]. discriminate Hr.
  - unfold showable_item. cbn [fst snd].
    destruct (String.eqb_spec s "uptime_in_seconds") as [->|Hup].
    + destruct (traverse_inv _ _ _ Hper "uptime_in_seconds") as [hits Hhits];
        [cbn; tauto|].
      destruct (traverse _ info) as [hs|e] eqn:Hinner; [|discriminate Hhits].
      destruct (traverse_inv _ _ _ Hinner _ Hkv) as [r Hr].
      cbv beta in Hr. cbn [fst snd re_match rbind] in Hr.
      change (String.prefix "uptime_in_seconds" "uptime_in_seconds")
        with true in Hr.
      cbv iota in Hr. rewrite prettify_uptime in Hr.
      unfold timedelta_seconds in Hr.
      destruct v; try discriminate Hr.
      destruct (between (-999999999) 999999999 (z / 86400)); [reflexivity|].
      discriminate Hr.
    + destruct (String.eqb_spec s "last_save_time") as [->|Hls]; [|reflexivity].
      destruct (traverse_inv _ _ _ Hper "last_save_time") as [hits Hhits];
        [cbn; tauto|].
      destruct (traverse _ info) as [hs|e] eqn:Hinner; [|discriminate Hhits].
      destruct (traverse_inv _ _ _ Hinner _ Hkv) as [r Hr]. discriminate Hr.
Qed.

(** X21. With the store answering and the two required metrics present,
    the statistics are UP exactly when every item of [INFO] can be shown:
    all keys are text, none is [last_save_time], and [uptime_in_seconds],
    if it is there, holds an integer that [timedelta] accepts.  When they
    are UP they carry the raw [INFO], the client count and the slow log as
    the store gave them. *)
Theorem stats_up_iff_showable {W} fmt args (conn : Conn W) w info w1 log w2
    len w3 used clients :
  info_cmd conn w = (Ok info, w1) ->
  slowlog_get_cmd conn None w1 = (Ok log, w2) ->
  slowlog_len_cmd conn w2 = (Ok len, w3) ->
  dict_get info (KStr "used_memory_human") = Some used ->
  dict_get info (KStr "connected_clients") = Some clients ->
  let d := fst (stats_compute fmt args conn w) in
  (status_of d = Some (Raw (VStr "UP")) <-> showable info = true)
  /\ (showable info = true ->
      dict_get d (KStr "details") = Some (Raw (VDict info))
      /\ dict_get d (KStr "clients") = Some (Raw clients)
      /\ dict_get d (KStr "slowlog") = Some (Raw (VList (map VDict log)))
      /\ dict_get d (KStr "slowlog_len") = Some (Raw len)
      /\ snd (stats_compute fmt args conn w) = w3).
Proof.
  intros Hinfo Hlog Hlen Hused Hclients d. subst d.
  unfold stats_compute, stats_body.
  rewrite (bind_ok _ _ _ _ _ Hinfo), (bind_ok _ _ _ _ _ Hlog),
    (bind_ok _ _ _ _ _ Hlen).
  unfold lift, dict_item. rewrite Hused, Hclients. cbn [rbind].
  destruct (showable info) eqn:Hshow.
  - destruct (brief_pairs_showable info Hshow) as [brief ->].
    destruct (db_pairs_showable info Hshow) as [db ->].
    cbn [rbind fst snd]. split; [split; reflexivity|].
    intros _. repeat split.
  - split; [|discriminate].
    destruct (brief_pairs info) as [brief|e] eqn:Hbrief.
    + apply brief_pairs_needs_showable in Hbrief. congruence.
    + cbn [rbind fst]. split; [|discriminate].
      unfold status_of, stats_degraded. cbn. intros H. discriminate H.
Qed.

Lemma stats_up_iff_showable_witness :
  status_of (fst (stats_compute plain_format plain_args healthy_conn tt))
  = Some (Raw (VStr "UP")).
Proof.
  destruct (stats_up_iff_showable plain_format plain_args healthy_conn tt
              healthy_info tt [] tt (VInt 0) tt (VStr "1.5M") (VInt 3)
              eq_refl eq_refl eq_refl eq_refl eq_refl) as [[_ H] _].
  apply H. reflexivity.
Defined.

(** X22. A store that answers but whose [INFO] lacks [used_memory_human],
    or has it and lacks [connected_clients], is reported as down: the
    lookup raises [KeyError] inside the [try] block and the result is the
    degraded one. *)
Theorem stats_missing_metric {W} fmt args (conn : Conn W) w info w1 log w2 len w3 :
  info_cmd conn w = (Ok info, w1) ->
  slowlog_get_cmd conn None w1 = (Ok log, w2) ->
  slowlog_len_cmd conn w2 = (Ok len, w3) ->
  (dict_get info (KStr "used_memory_human") = None ->
   stats_compute fmt args conn w
   = (stats_degraded args (KeyError (KStr "used_memory_human")), w3))
  /\ (dict_get info (KStr "used_memory_human") <> None ->
      dict_get info (KStr "connected_clients") = None ->
      stats_compute fmt args conn w
      = (stats_degraded args (KeyError (KStr "connected_clients")), w3)).
Proof.
  intros Hinfo Hlog Hlen.
  unfold stats_compute, stats_body.
  rewrite (bind_ok _ _ _ _ _ Hinfo), (bind_ok _ _ _ _ _ Hlog),
    (bind_ok _ _ _ _ _ Hlen).
  unfold lift, dict_item. split.
  - intros ->. reflexivity.
  - intros Hused ->.
    destruct (dict_get info (KStr "used_memory_human")); [reflexivity|].
    now elim Hused.
Qed.

Lemma stats_missing_metric_witness :
  status_of (fst (stats_compute plain_format plain_args sparse_conn tt))
  = Some (Raw (VStr "ERROR: ()")).
Proof.
  destruct (stats_missing_metric plain_format plain_args sparse_conn tt
              [ (KStr "connected_clients", VInt 3) ] tt [] tt (VInt 0) tt
              eq_refl eq_refl eq_refl) as [H _].
  rewrite H; reflexivity.
Defined.

(** ** The slow log *)






(** X24. A lost connection is not an error for the slow log: [slowlog_get]
    then yields no entry and does not raise, and [slowlog_len] is 0.  Any
    other exception of the store passes through both. *)
Theorem slowlog_lost_connection {W} (conn : Conn W) (limit : Z) (w : W) :
  (forall msg w',
      slowlog_get_cmd conn (Some REDISBOARD_SLOWLOG_LEN) w
      = (Raise (ConnectionError msg), w') ->
      slowlog_get conn limit w = (([], None), w'))
  /\ (forall msg w',
      slowlog_len_cmd conn w = (Raise (ConnectionError msg), w') ->
      slowlog_len conn w = (Ok (VInt 0), w'))
  /\ (forall e w',
      (forall msg, e <> ConnectionError msg) ->
      (slowlog_get_cmd conn (Some REDISBOARD_SLOWLOG_LEN) w = (Raise e, w') ->
       slowlog_get conn limit w = (([], Some e), w'))
      /\ (slowlog_len_cmd conn w = (Raise e, w') ->
          slowlog_len conn w = (Raise e, w'))).
Proof.
  split; [|split].
  - intros msg w' H. unfold slowlog_get. now rewrite H.
  - intros msg w' H. unfold slowlog_len. now rewrite H.
  - intros e w' Hne. split; intros H.
    + unfold slowlog_get. rewrite H.
      destruct e; try reflexivity. now elim (Hne msg).
    + unfold slowlog_len. rewrite H.
      destruct e; try reflexivity. now elim (Hne msg).
Qed.

Lemma slowlog_lost_connection_witness :
  slowlog_get down_conn 10 tt = (([], None), tt)
  /\ slowlog_len down_conn tt = (Ok (VInt 0), tt).
Proof.
  destruct (slowlog_lost_connection down_conn 10 tt) as (H1 & H2 & _).
  split.
  - apply (H1 "Connection refused"). reflexivity.
  - apply (H2 "Connection refused"). reflexivity.
Defined.

(** ** The per-database counts *)

Lemma substring_full (s : string) : String.substring 0 (String.length s) s = s.
Proof. induction s as [|c s IH]; cbn; [reflexivity|now rewrite IH]. Qed.

Lemma prefix_db (s : string) :
  String.prefix "db" s = true ->
  exists r, s = String "d" (String "b" r) /\ drop2 (KStr s) = KStr r.
Proof.
  destruct s as [|c1 [|c2 r]]; cbn [String.prefix].
  - discriminate.
  - destruct (ascii_dec "d" c1); discriminate.
  - destruct (ascii_dec "d" c1) as [<-|]; [|discriminate].
    destruct (ascii_dec "b" c2) as [<-|]; [|discriminate].
    intros _. exists r. split; [reflexivity|].
    unfold drop2. cbn [String.length Nat.sub String.substring].
    now rewrite Nat.sub_0_r, substring_full.
Qed.

Lemma prefix_db_intro (r : string) :
  String.prefix "db" (String "d" (String "b" r)) = true.
Proof.
  cbn [String.prefix].
  destruct (ascii_dec "d" "d") as [_|H]; [|now elim H].
  destruct (ascii_dec "b" "b") as [_|H]; [|now elim H].
  now destruct r.
Qed.

Lemma db_pairs_items (info : dict pyval) :
  forallb text_key info = true -> db_pairs info = Ok (db_items info).
Proof.
  intros H. unfold db_pairs, db_items.
  induction info as [|[[b|s] v] info IH]; [reflexivity|discriminate H|].
  cbn [forallb] in H. apply andb_true_iff in H. destruct H as [_ H].
  specialize (IH H). cbn [traverse flat_map fst snd startswith_db rbind].
  destruct (traverse _ info) as [hits|e]; [|discriminate IH].
  cbn [rbind] in *. injection IH as IH. cbn [List.concat]. now rewrite IH.
Qed.

Lemma dict_get_notin {V} (l : list (pykey * V)) (k : pykey) :
  ~ In k (map fst l) -> dict_get l k = None.
Proof.
  induction l as [|[k0 v0] l IH]; intros H; [reflexivity|].
  cbn [dict_get]. destruct (pykey_eqb k0 k) eqn:E.
  - apply pykey_eqb_eq in E. subst k0. elim H. now left.
  - apply IH. intros Hin. apply H. now right.
Qed.

Lemma dict_of_pairs_nodup {V} (l : list (pykey * V)) (k : pykey) :
  NoDup (map fst l) ->
  forall acc,
    dict_get (fold_left (fun d kv => dict_set d (fst kv) (snd kv)) l acc) k
    = match dict_get l k with
      | Some v => Some v
      | None => dict_get acc k
      end.
Proof.
  induction l as [|[k0 v0] l IH]; intros Hnd acc; [reflexivity|].
  cbn [map fst] in Hnd. inversion Hnd as [|? ? Hnin Hnd']; subst.
  cbn [fold_left fst snd dict_get]. rewrite (IH Hnd'), dict_get_set.
  destruct (pykey_eqb k0 k) eqn:E; [|reflexivity].
  apply pykey_eqb_eq in E. subst k0.
  now rewrite (dict_get_notin l k Hnin).
Qed.

Lemma db_items_keys (info : dict pyval) (k : pykey) :
  In k (map fst (db_items info)) ->
  exists r, k = KStr r /\ In (KStr (String "d" (String "b" r))) (map fst info).
Proof.
  induction info as [|[[b|s] v] info IH]; cbn [db_items flat_map fst snd].
  - intros [].
  - intros H. destruct (IH H) as (r & -> & Hin). exists r. split; [reflexivity|].
    now right.
  - destruct (String.prefix "db" s) eqn:Hp; cbn [app map].
    + destruct (prefix_db s Hp) as (r & -> & Hr). rewrite Hr.
      intros [<-|H].
      * exists r. split; [reflexivity|]. now left.
      * destruct (IH H) as (r' & -> & Hin). exists r'.
        split; [reflexivity|]. now right.
    + intros H. destruct (IH H) as (r' & -> & Hin). exists r'.
      split; [reflexivity|]. now right.
Qed.

Lemma db_items_nodup (info : dict pyval) :
  NoDup (map fst info) -> NoDup (map fst (db_items info)).
Proof.
  induction info as [|[[b|s] v] info IH]; intros Hnd.
  - constructor.
  - inversion Hnd; subst. now apply IH.
  - inversion Hnd as [|? ? Hnin Hnd']; subst.
    cbn [db_items flat_map fst snd].
    destruct (String.prefix "db" s) eqn:Hp; cbn [app map]; [|now apply IH].
    destruct (prefix_db s Hp) as (r & -> & Hr). rewrite Hr.
    constructor; [|now apply IH].
    intros Hin. apply db_items_keys in Hin.
    destruct Hin as (r' & [= <-] & Hin). contradiction.
Qed.

Lemma db_items_get (info : dict pyval) (n : string) :
  forallb text_key info = true ->
  dict_get (db_items info) (KStr n)
  = option_map Raw (dict_get info (KStr (String "d" (String "b" n)))).
Proof.
  induction info as [|[[b|s] v] info IH]; intros H;
    [reflexivity|discriminate H|].
  cbn [forallb] in H. apply andb_true_iff in H. destruct H as [_ H].
  specialize (IH H). cbn [db_items flat_map fst snd dict_get pykey_eqb].
  destruct (String.prefix "db" s) eqn:Hp; cbn [app].
  - destruct (prefix_db s Hp) as (r & -> & Hr). rewrite Hr.
    cbn [dict_get pykey_eqb].
    change (String.eqb (String "d" (String "b" r)) (String "d" (String "b" n)))
      with (String.eqb r n).
    destruct (String.eqb r n); [reflexivity|exact IH].
  - destruct (String.eqb_spec s (String "d" (String "b" n))) as [->|_].
    + now rewrite prefix_db_intro in Hp.
    + exact IH.
Qed.

Lemma showable_text_keys (info : dict pyval) :
  showable info = true -> forallb text_key info = true.
Proof.
  unfold showable. rewrite !forallb_forall. intros H kv Hkv.
  specialize (H kv Hkv). unfold showable_item in H. unfold text_key.
  now destruct (fst kv).
Qed.

(** X25. When the statistics are UP, their [db] field is the per-database
    part of [INFO] with the prefix [db] taken off: under [N] it has what
    [INFO] has under [dbN], for every [N], and all its keys are text. *)
Theorem stats_db_counts {W} fmt args (conn : Conn W) w info w1 log w2 len w3
    used clients :
  info_cmd conn w = (Ok info, w1) ->
  slowlog_get_cmd conn None w1 = (Ok log, w2) ->
  slowlog_len_cmd conn w2 = (Ok len, w3) ->
  dict_get info (KStr "used_memory_human") = Some used ->
  dict_get info (KStr "connected_clients") = Some clients ->
  showable info = true ->
  NoDup (map fst info) ->
  exists db,
    dict_get (fst (stats_compute fmt args conn w)) (KStr "db") = Some (Mapping db)
    /\ (forall n, dict_get db (KStr n)
                  = option_map Raw (dict_get info (KStr (String "d" (String "b" n)))))
    /\ (forall b, dict_get db (KBytes b) = None).
Proof.
  intros Hinfo Hlog Hlen Hused Hclients Hshow Hnd.
  pose proof (showable_text_keys info Hshow) as Htext.
  unfold stats_compute, stats_body.
  rewrite (bind_ok _ _ _ _ _ Hinfo), (bind_ok _ _ _ _ _ Hlog),
    (bind_ok _ _ _ _ _ Hlen).
  unfold lift, dict_item. rewrite Hused, Hclients. cbn [rbind].
  destruct (brief_pairs_showable info Hshow) as [brief ->].
  rewrite (db_pairs_items info Htext). cbn [rbind fst].
  eexists. split; [reflexivity|].
  pose proof (db_items_nodup info Hnd) as Hnd'.
  split.
  - intros n. unfold dict_of_pairs.
    rewrite (dict_of_pairs_nodup _ _ Hnd'), (db_items_get info n Htext).
    destruct (dict_get info (KStr (String "d" (String "b" n)))); reflexivity.
  - intros b. unfold dict_of_pairs. rewrite (dict_of_pairs_nodup _ _ Hnd').
    rewrite dict_get_notin; [reflexivity|].
    intros Hin. apply db_items_keys in Hin. destruct Hin as (r & [=] & _).
Qed.

Lemma stats_db_counts_witness :
  exists db,
    dict_get (fst (stats_compute plain_format plain_args healthy_conn tt))
      (KStr "db") = Some (Mapping db)
    /\ dict_get db (KStr "0") = Some (Raw (VStr "keys=2,expires=1")).
Proof.
  destruct (stats_db_counts plain_format plain_args healthy_conn tt healthy_info
              tt [] tt (VInt 0) tt (VStr "1.5M") (VInt 3)
              eq_refl eq_refl eq_refl eq_refl eq_refl eq_refl)
    as (db & Hdb & Hget & _).
  - unfold healthy_info. cbn [map fst].
    repeat (constructor;
            [intros Hin; cbn [In] in Hin;
             repeat (destruct Hin as [Hin|Hin]; [discriminate Hin|]);
             exact Hin|]).
    constructor.
  - exists db. split; [exact Hdb|]. rewrite Hget. reflexivity.
Defined.

(** ** The brief details *)

Lemma traverse_map {A B} (f : A -> result B) (g : A -> B) (l : list A) :
  (forall a, In a l -> f a = Ok (g a)) -> traverse f l = Ok (map g l).
Proof.
  induction l as [|a l IH]; intros H; [reflexivity|].
  cbn [traverse map]. rewrite (H a (or_introl eq_refl)). cbn [rbind].
  rewrite IH; [reflexivity|]. intros x Hx. apply H. now right.
Qed.

Lemma prettify_shown (s : string) (v : pyval) :
  showable_item (KStr s, v) = true ->
  prettify (KStr s) v = Ok (KStr s, shown_value s v).
Proof.
  unfold showable_item, shown_value. cbn [fst snd].
  unfold prettify, key_in, REDISBOARD_DETAIL_SECONDS_KEYS,
    REDISBOARD_DETAIL_TIMESTAMP_KEYS, existsb, pykey_eqb.
  destruct (String.eqb s "uptime_in_seconds").
  - destruct v; try discriminate. intros H.
    cbn [orb]. unfold timedelta_seconds. rewrite H. reflexivity.
  - intros H. apply negb_true_iff in H. rewrite H. reflexivity.
Qed.

Lemma brief_pairs_items (info : dict pyval) :
  showable info = true -> brief_pairs info = Ok (brief_items info).
Proof.
  intros H. unfold showable in H. rewrite forallb_forall in H.
  unfold brief_pairs, brief_items.
  rewrite (traverse_map _ (fun name => flat_map (brief_hits name) info)).
  - cbn [rbind]. now rewrite flat_map_concat_map.
  - intros name _.
    rewrite (traverse_map _ (brief_hits name)).
    + cbn [rbind]. now rewrite flat_map_concat_map.
    + intros [[b|s] v] Hkv; specialize (H _ Hkv); [discriminate H|].
      unfold brief_hits. cbn [fst snd re_match rbind].
      destruct (String.prefix name s); [|reflexivity].
      now rewrite (prettify_shown s v H).
Qed.

Lemma dict_get_In {V} (l : list (pykey * V)) (k : pykey) (v : V) :
  dict_get l k = Some v -> In (k, v) l.
Proof.
  induction l as [|[k0 v0] l IH]; [discriminate|].
  cbn [dict_get]. destruct (pykey_eqb k0 k) eqn:E.
  - apply pykey_eqb_eq in E. subst k0. intros [= ->]. now left.
  - intros H. right. now apply IH.
Qed.

Lemma dict_get_unique {V} (l : list (pykey * V)) (k : pykey) (v : V) :
  NoDup (map fst l) -> In (k, v) l -> dict_get l k = Some v.
Proof.
  induction l as [|[k0 v0] l IH]; intros Hnd Hin; [destruct Hin|].
  cbn [map fst] in Hnd. inversion Hnd as [|? ? Hnin Hnd']; subst.
  cbn [dict_get]. destruct Hin as [[= -> ->]|Hin].
  - now rewrite pykey_eqb_refl.
  - destruct (pykey_eqb k0 k) eqn:E; [|now apply IH].
    apply pykey_eqb_eq in E. subst k0. elim Hnin.
    apply in_map_iff. now exists (k, v).
Qed.

(** Assigning pairs that agree on a key leaves their value under it. *)
Lemma dict_of_pairs_agree {V} (l : list (pykey * V)) (k : pykey) (v : V) :
  (forall v', In (k, v') l -> v' = v) ->
  forall acc,
    In (k, v) l \/ dict_get acc k = Some v ->
    dict_get (fold_left (fun d kv => dict_set d (fst kv) (snd kv)) l acc) k
    = Some v.
Proof.
  induction l as [|[k0 v0] l IH]; intros Hag acc H.
  - destruct H as [[]|H]. exact H.
  - cbn [fold_left fst snd]. apply IH.
    + intros v' Hv'. apply Hag. now right.
    + destruct H as [[[= -> ->]|H]|H].
      * right. now rewrite dict_get_set, pykey_eqb_refl.
      * now left.
      * right. rewrite dict_get_set.
        destruct (pykey_eqb k0 k) eqn:E; [|exact H].
        apply pykey_eqb_eq in E. subst k0. f_equal.
        apply Hag. now left.
Qed.

Lemma brief_items_In (info : dict pyval) (k : pykey) (r : rendered) :
  In (k, r) (brief_items info) <->
  exists name s v,
    In name REDISBOARD_DETAIL_FILTERS /\ String.prefix name s = true
    /\ In (KStr s, v) info /\ k = KStr s /\ r = shown_value s v.
Proof.
  unfold brief_items. rewrite in_flat_map. split.
  - intros (name & Hname & Hin). apply in_flat_map in Hin.
    destruct Hin as ([[b|s] v] & Hkv & Hhit); unfold brief_hits in Hhit;
      cbn [fst snd] in Hhit; [destruct Hhit|].
    destruct (String.prefix name s) eqn:Hp; [|destruct Hhit].
    destruct Hhit as [[= <- <-]|[]].
    exists name, s, v. repeat split; assumption.
  - intros (name & s & v & Hname & Hp & Hkv & -> & ->).
    exists name. split; [exact Hname|]. apply in_flat_map.
    exists (KStr s, v). split; [exact Hkv|].
    unfold brief_hits. cbn [fst snd]. rewrite Hp. now left.
Qed.

(** X26. When the statistics are UP, the brief details hold exactly the
    metrics whose name starts with one of the twelve filter names, each
    with its value from [INFO]: [uptime_in_seconds] as a duration, every
    other one as it came. *)
Theorem stats_brief_details {W} fmt args (conn : Conn W) w info w1 log w2 len w3
    used clients :
  info_cmd conn w = (Ok info, w1) ->
  slowlog_get_cmd conn None w1 = (Ok log, w2) ->
  slowlog_len_cmd conn w2 = (Ok len, w3) ->
  dict_get info (KStr "used_memory_human") = Some used ->
  dict_get info (KStr "connected_clients") = Some clients ->
  showable info = true ->
  NoDup (map fst info) ->
  exists brief,
    dict_get (fst (stats_compute fmt args conn w)) (KStr "brief_details")
    = Some (Mapping brief)
    /\ forall s,
         dict_get brief (KStr s)
         = if allowed s
           then option_map (shown_value s) (dict_get info (KStr s))
           else None.
Proof.
  intros Hinfo Hlog Hlen Hused Hclients Hshow Hnd.
  unfold stats_compute, stats_body.
  rewrite (bind_ok _ _ _ _ _ Hinfo), (bind_ok _ _ _ _ _ Hlog),
    (bind_ok _ _ _ _ _ Hlen).
  unfold lift, dict_item. rewrite Hused, Hclients. cbn [rbind].
  rewrite (brief_pairs_items info Hshow). cbn [rbind].
  destruct (db_pairs_showable info Hshow) as [db ->]. cbn [rbind fst].
  eexists. split; [reflexivity|].
  intros s. unfold dict_of_pairs.
  destruct (allowed s) eqn:Hal; [destruct (dict_get info (KStr s)) as [v|] eqn:Hv|].
  - apply existsb_exists in Hal. destruct Hal as (name & Hname & Hp).
    cbn [option_map]. apply dict_of_pairs_agree.
    + intros r Hr. apply brief_items_In in Hr.
      destruct Hr as (name' & s' & v' & _ & _ & Hkv & [= <-] & ->).
      apply (dict_get_unique _ _ _ Hnd) in Hkv. congruence.
    + left. apply brief_items_In. exists name, s, v.
      repeat split; try assumption. now apply dict_get_In.
  - cbn [option_map]. rewrite dict_of_pairs_unset; [reflexivity|].
    intros [k r] Hin. apply brief_items_In in Hin.
    destruct Hin as (name' & s' & v' & _ & _ & Hkv & -> & ->).
    cbn [fst pykey_eqb]. destruct (String.eqb_spec s' s) as [->|]; [|reflexivity].
    apply (dict_get_unique _ _ _ Hnd) in Hkv. congruence.
  - rewrite dict_of_pairs_unset; [reflexivity|].
    intros [k r] Hin. apply brief_items_In in Hin.
    destruct Hin as (name' & s' & v' & Hname & Hp & _ & -> & ->).
    cbn [fst pykey_eqb]. destruct (String.eqb_spec s' s) as [->|]; [|reflexivity].
    assert (allowed s = true); [|congruence].
    apply existsb_exists. now exists name'.
Qed.

Lemma stats_brief_details_witness :
  exists brief,
    dict_get (fst (stats_compute plain_format plain_args healthy_conn tt))
      (KStr "brief_details") = Some (Mapping brief)
    /\ dict_get brief (KStr "uptime_in_seconds") = Some (Timedelta 90)
    /\ dict_get brief (KStr "connected_clients") = None.
Proof.
  destruct (stats_brief_details plain_format plain_args healthy_conn tt
              healthy_info tt [] tt (VInt 0) tt (VStr "1.5M") (VInt 3)
              eq_refl eq_refl eq_refl eq_refl eq_refl eq_refl)
    as (brief & Hb & Hget).
  - unfold healthy_info. cbn [map fst].
    repeat (constructor;
            [intros Hin; cbn [In] in Hin;
             repeat (destruct Hin as [Hin|Hin]; [discriminate Hin|]);
             exact Hin|]).
    constructor.
  - exists brief. split; [exact Hb|]. rewrite !Hget. split; reflexivity.
Defined.
